(** * Media-Tui: playback sessions and view navigation

    A shallow embedding of the dashboard of kleinpanic/Media-Tui
    (src/main.py) and of its four panes (src/local_music.py,
    src/local_media.py, src/spotify_player.py, src/radio_player.py).

    Every Python method becomes a computation in a state-and-exception
    monad over the pair of the operating-system state ([OS.World]:
    processes, threads, files, clock) and the object's fields.  An
    exception keeps the fields written before it was raised, as in Python.

    What is left outside the model: curses drawing (the panes' render
    methods write to the terminal only, apart from the fields noted at
    their definitions), logging, and the bodies of the external
    collaborators (mpv, MediaInfo, Mutagen, the Spotify Web API, Radio
    Browser, amixer), whose answers are read from the oracle record
    [Env].  [time.time()] reads the world's clock, an exact rational. *)

From Stdlib Require Import ZArith QArith Qcanon Lia Ascii String.
From stdpp Require Import base option numbers list gmap strings pretty.

Local Open Scope string_scope.
Local Open Scope list_scope.
Local Open Scope Z_scope.

(** ** Python values, exceptions and the state monad *)

Module Py.

Inductive exn :=
| IndexError
| ValueError
| KeyError
| TypeError
| AttributeError
| RuntimeError
| NameError
| UnboundLocalError
| FileNotFoundError
| SpotifyException (volume_control_disallow : bool)
| RequestException.

Inductive result (A : Type) :=
| Ok (a : A)
| Raise (e : exn).

Arguments Ok {A} a.
Arguments Raise {A} e.

(** A method running on a state [S]: its result (or the exception that
    left it) and the state it leaves. *)
Definition M (S A : Type) : Type := S → result A * S.

Definition ret {S A} (a : A) : M S A := λ s, (Ok a, s).

Definition bind {S A B} (m : M S A) (k : A → M S B) : M S B :=
  λ s, match m s with
       | (Ok a, s') => k a s'
       | (Raise e, s') => (Raise e, s')
       end.

Definition raise {S A} (e : exn) : M S A := λ s, (Raise e, s).

Definition gets {S A} (f : S → A) : M S A := λ s, (Ok (f s), s).

Definition modify {S} (f : S → S) : M S unit := λ s, (Ok tt, f s).

(** [try: m except Exception as e: h e] *)
Definition try_except {S A} (m : M S A) (h : exn → M S A) : M S A :=
  λ s, match m s with
       | (Ok a, s') => (Ok a, s')
       | (Raise e, s') => h e s'
       end.

Definition lift {S A} (r : result A) : M S A := λ s, (r, s).

(** Run a computation on the first (second) component of a pair state. *)
Definition zoom1 {S1 S2 A} (m : M S1 A) : M (S1 * S2) A :=
  λ s, let (r, s1) := m s.1 in (r, (s1, s.2)).

Definition zoom2 {S1 S2 A} (m : M S2 A) : M (S1 * S2) A :=
  λ s, let (r, s2) := m s.2 in (r, (s.1, s2)).

Definition when {S} (b : bool) (m : M S unit) : M S unit :=
  if b then m else ret tt.

#[global] Instance M_ret {S} : MRet (M S) := λ A, ret.
#[global] Instance M_bind {S} : MBind (M S) := λ A B k m, bind m k.

(** The position a Python index [i] names in a list of length [n]:
    negative indices count from the end. *)
Definition position (n : nat) (i : Z) : option nat :=
  let j := if i <? 0 then Z.of_nat n + i else i in
  if (0 <=? j) && (j <? Z.of_nat n) then Some (Z.to_nat j) else None.

(** [l[i]] *)
Definition index {A} (l : list A) (i : Z) : result A :=
  match position (length l) i with
  | Some j => match l !! j with Some x => Ok x | None => Raise IndexError end
  | None => Raise IndexError
  end.

(** [del l[i]] *)
Definition delete_at {A} (l : list A) (i : Z) : result (list A) :=
  match position (length l) i with
  | Some j => Ok (delete j l)
  | None => Raise IndexError
  end.

(** [l.index(x)]: the first position of [x], or ValueError. *)
Fixpoint list_index `{EqDecision A} (x : A) (l : list A) : result Z :=
  match l with
  | [] => Raise ValueError
  | y :: l' =>
      if decide (y = x) then Ok 0
      else match list_index x l' with Ok i => Ok (i + 1) | Raise e => Raise e end
  end.

(** [x in l] *)
Definition contains `{EqDecision A} (x : A) (l : list A) : bool :=
  bool_decide (x ∈ l).

(** Truth value of an optional float ([None] and [0.0] are false). *)
Definition truthy_float (o : option Qc) : bool :=
  match o with
  | Some q => negb (bool_decide (q = 0%Qc))
  | None => false
  end.

Definition truthy_str (o : option string) : bool :=
  match o with
  | Some s => negb (bool_decide (s = ""))
  | None => false
  end.

(** [ord(c)] *)
Definition ord (c : Ascii.ascii) : Z := Z.of_N (Ascii.N_of_ascii c).

(** JSON scalars.  Python compares [True] with [1] as equal, so a boolean
    is kept as the number it equals. *)
Inductive json :=
| JNull
| JNum (q : Qc)
| JStr (s : string).

#[global] Instance json_eq_dec : EqDecision json.
Proof. solve_decision. Defined.

(** The values kept in the panes' metadata dictionaries. *)
Inductive value :=
| VNone
| VStr (s : string)
| VNum (q : Qc)
| VPath (p : list string)
| VDict (d : gmap string string)
| VImage (data : list Z).

#[global] Instance value_eq_dec : EqDecision value.
Proof. solve_decision. Defined.

End Py.

Export Py.

(** ** pathlib *)

Module Pathlib.

(** A [pathlib.Path] below the root, as its components. *)
Abbreviation Path := (list string).

Definition name (p : Path) : string := List.last p "".

Definition parent (p : Path) : Path := removelast p.

(** [p / c] *)
Definition div (p : Path) (c : string) : Path := p ++ [c].

(** [str(p)] *)
Definition str (p : Path) : string :=
  match p with
  | [] => "/"
  | _ => foldr (λ c acc, "/" +:+ c +:+ acc) "" p
  end.

(** [s.rfind(c)], counting positions from [pos]; -1 when [c] is absent. *)
Fixpoint rfind (c : Ascii.ascii) (s : string) (pos : Z) : Z :=
  match s with
  | EmptyString => -1
  | String a s' =>
      let r := rfind c s' (pos + 1) in
      if 0 <=? r then r else if Ascii.eqb a c then pos else -1
  end.

Definition len (s : string) : Z := Z.of_nat (String.length s).

(** [p.suffix]: the text from the last dot of the name, when that dot is
    neither its first nor its last character. *)
Definition suffix (p : Path) : string :=
  let n := name p in
  let i := rfind "."%char n 0 in
  if (0 <? i) && (i <? len n - 1)
  then substring (Z.to_nat i) (Z.to_nat (len n - i)) n
  else "".

(** [p.stem] *)
Definition stem (p : Path) : string :=
  let n := name p in
  let i := rfind "."%char n 0 in
  if (0 <? i) && (i <? len n - 1) then substring 0 (Z.to_nat i) n else n.

Definition lower_char (a : Ascii.ascii) : Ascii.ascii :=
  let n := Ascii.N_of_ascii a in
  if ((65 <=? n) && (n <=? 90))%N then Ascii.ascii_of_N (n + 32) else a.

(** [s.lower()] on ASCII text. *)
Fixpoint lower (s : string) : string :=
  match s with
  | EmptyString => EmptyString
  | String a s' => String (lower_char a) (lower s')
  end.

(** [s.startswith('.')] *)
Definition hidden (p : Path) : bool := String.prefix "." (name p).

(** The order of paths: component by component, each by code points. *)
Fixpoint compare (p q : Path) : comparison :=
  match p, q with
  | [], [] => Eq
  | [], _ :: _ => Lt
  | _ :: _, [] => Gt
  | a :: p', b :: q' =>
      match String.compare a b with
      | Eq => compare p' q'
      | c => c
      end
  end.

Definition leb (p q : Path) : bool :=
  match compare p q with Gt => false | _ => true end.

Fixpoint insert (p : Path) (l : list Path) : list Path :=
  match l with
  | [] => [p]
  | q :: l' => if leb p q then p :: l else q :: insert p l'
  end.

(** [sorted(l)] *)
Definition sorted (l : list Path) : list Path := foldr insert [] l.

End Pathlib.

Import Pathlib.

(** ** Processes, threads, files and the clock *)

Module OS.

Inductive thread :=
| MainThread
| Worker (tid : nat).

#[global] Instance thread_eq_dec : EqDecision thread.
Proof. solve_decision. Defined.

(** A child process: alive; dead with its exit status not yet collected
    (a zombie); dead and reaped. *)
Inductive proc_status :=
| Running
| Exited (code : Z)
| Reaped (code : Z).

#[global] Instance proc_status_eq_dec : EqDecision proc_status.
Proof. solve_decision. Defined.

Inductive signal :=
| SIGSTOP
| SIGCONT.

#[global] Instance signal_eq_dec : EqDecision signal.
Proof. solve_decision. Defined.

(** The calls that reach outside the object, in the order they are made.
    [MonitorFlag] is the write of the monitor's cancellation flag, which
    the monitor thread reads. *)
Inductive event :=
| Popen (pid : nat) (argv : list string)
| Terminate (pid : nat)
| Wait (pid : nat)
| SendSignal (pid : nat) (sig : signal)
| Remove (path : string)
| ThreadStart (tid : nat)
| Join (tid : nat) (timeout : option Qc)
| MonitorFlag (b : bool).

#[global] Instance event_eq_dec : EqDecision event.
Proof. solve_decision. Defined.

Record World := mkWorld {
  procs : list proc_status;           (* pid = position *)
  threads : list bool;                (* worker threads, [true] = alive *)
  files : gset string;                (* socket paths that exist *)
  clock : Qc;                         (* time.time() *)
  trace : list event;                 (* oldest first *)
  favorites_file : option (list (gmap string json)); (* CHANNELS_FILE *)
  mixer : option Z                    (* amixer's Master level, if any *)
}.

Definition set_procs (f : list proc_status → list proc_status) (w : World) : World :=
  mkWorld (f (procs w)) (threads w) (files w) (clock w) (trace w) (favorites_file w) (mixer w).
Definition set_threads (f : list bool → list bool) (w : World) : World :=
  mkWorld (procs w) (f (threads w)) (files w) (clock w) (trace w) (favorites_file w) (mixer w).
Definition set_files (f : gset string → gset string) (w : World) : World :=
  mkWorld (procs w) (threads w) (f (files w)) (clock w) (trace w) (favorites_file w) (mixer w).
Definition set_clock (q : Qc) (w : World) : World :=
  mkWorld (procs w) (threads w) (files w) q (trace w) (favorites_file w) (mixer w).
Definition set_trace (f : list event → list event) (w : World) : World :=
  mkWorld (procs w) (threads w) (files w) (clock w) (f (trace w)) (favorites_file w) (mixer w).
Definition set_favorites_file (v : option (list (gmap string json))) (w : World) : World :=
  mkWorld (procs w) (threads w) (files w) (clock w) (trace w) v (mixer w).
Definition set_mixer (v : option Z) (w : World) : World :=
  mkWorld (procs w) (threads w) (files w) (clock w) (trace w) (favorites_file w) v.

Definition log (e : event) : M World unit := modify (set_trace (λ t, t ++ [e])).

(** [subprocess.Popen(argv)]; FileNotFoundError without the program. *)
Definition popen (installed : bool) (argv : list string) : M World nat :=
  if installed then
    pid ← gets (λ w, length (procs w));
    modify (set_procs (λ ps, ps ++ [Running]));;
    log (Popen pid argv);;
    mret pid
  else raise FileNotFoundError.

(** [p.poll()]: [None] while the child runs; otherwise its exit status,
    collected on the way. *)
Definition poll (pid : nat) : M World (option Z) :=
  st ← gets (λ w, procs w !! pid);
  match st with
  | Some Running => mret None
  | Some (Exited c) => modify (set_procs <[pid := Reaped c]>);; mret (Some c)
  | Some (Reaped c) => mret (Some c)
  | None => mret (Some 0)
  end.

(** [p.terminate()]: SIGTERM to a running child, taken to act at once
    (-15 is the status Python reports for it); the status is not
    collected.  A child already dead is only polled. *)
Definition terminate (pid : nat) : M World unit :=
  log (Terminate pid);;
  st ← gets (λ w, procs w !! pid);
  match st with
  | Some Running => modify (set_procs <[pid := Exited (-15)]>)
  | Some (Exited c) => modify (set_procs <[pid := Reaped c]>)
  | _ => mret tt
  end.

(** [p.wait()]: blocks until the child is dead and collects its status. *)
Definition wait (pid : nat) : M World unit :=
  log (Wait pid);;
  st ← gets (λ w, procs w !! pid);
  match st with
  | Some Running => modify (set_procs <[pid := Reaped 0]>)
  | Some (Exited c) => modify (set_procs <[pid := Reaped c]>)
  | _ => mret tt
  end.

(** [p.send_signal(sig)] for SIGSTOP and SIGCONT. *)
Definition send_signal (pid : nat) (sig : signal) : M World unit :=
  log (SendSignal pid sig).

(** [threading.Thread(target=...).start()] *)
Definition thread_start : M World nat :=
  tid ← gets (λ w, length (threads w));
  modify (set_threads (λ ts, ts ++ [true]));;
  log (ThreadStart tid);;
  mret tid.

(** [t.is_alive()] *)
Definition is_alive (tid : nat) : M World bool :=
  gets (λ w, default false (threads w !! tid)).

Definition thread_exit (tid : nat) : M World unit :=
  modify (set_threads <[tid := false]>).

(** [t.join()] called by [caller]: a thread that joins itself gets
    RuntimeError ("cannot join current thread"); otherwise the call
    returns once [t] has finished. *)
Definition join (caller : thread) (tid : nat) : M World unit :=
  if decide (caller = Worker tid) then raise RuntimeError
  else log (Join tid None);; thread_exit tid.

(** [os.path.exists(path)] and [os.remove(path)] *)
Definition path_exists (path : string) : M World bool :=
  gets (λ w, bool_decide (path ∈ files w)).

Definition remove (path : string) : M World unit :=
  ex ← path_exists path;
  if (ex : bool) then (modify (set_files (λ fs, fs ∖ {[path]}));; log (Remove path))
  else raise FileNotFoundError.

(** [time.time()] *)
Definition time : M World Qc := gets clock.

End OS.

Import OS.

(** ** The answers of the external collaborators *)

Record Env := mkEnv {
  getpid : nat;                       (* os.getpid() *)
  home : Path;                        (* Path.home() *)
  mpv_installed : bool;
  iterdir : Path → list Path;
  path_exists_ : Path → bool;
  is_dir : Path → bool;
  is_file : Path → bool;
  (* MediaInfo.parse: the first general, video and audio track as
     dictionaries; all three absent when parsing raises *)
  media_info : Path → option (gmap string string) * option (gmap string string) * option (gmap string string);
  (* Mutagen and PIL on a music file: the dictionary stored in
     current_track_info, or the exception that leaves play_music_file *)
  track_info : Path → result (gmap string value);
  (* GET stations/topclick/50: the decoded body of a 200 answer *)
  radio_browser : option (list (gmap string json));
  getmaxyx : Z * Z                    (* stdscr.getmaxyx(): height, width *)
}.

(** A curses window, as the size [getmaxyx()] reports: height, width. *)
Abbreviation Window := (Z * Z)%type.

(** Key codes of curses. *)
Definition KEY_ENTER : Z := Eval cbv in ord "010"%char.
Definition KEY_BACKSPACE : Z := 263.
Definition KEY_DOWN : Z := 258.
Definition KEY_UP : Z := 259.
Definition KEY_MOUSE : Z := 409.
Definition BUTTON1_CLICKED : Z := 4.

(** [key in (curses.KEY_BACKSPACE, ord('\b'), 127)] *)
Definition is_backspace (key : Z) : bool :=
  (key =? KEY_BACKSPACE) || (key =? 8) || (key =? 127).

Definition key (c : Ascii.ascii) : Z := ord c.

(** ** local_media.py *)

Module LocalMedia.

Record t := mk {
  media_dir : Path;
  selected_index : Z;
  file_list : list Path;
  player_process : option nat;
  current_view : string;
  window : option Window;               (* the window last rendered into *)
  current_media_info : gmap string value;
  playback_start_time : option Qc;
  pause_time : option Qc;
  playlist : list Path;
  current_media_index : option Z;
  ipc_socket : option string;
  mpv_event_thread : option nat;
  monitoring_mpv : bool;
  player_paused : option bool           (* absent until first assigned *)
}.

Definition set_media_dir (v : Path) (s : t) : t :=
  mk v (selected_index s) (file_list s) (player_process s) (current_view s) (window s) (current_media_info s) (playback_start_time s) (pause_time s) (playlist s) (current_media_index s) (ipc_socket s) (mpv_event_thread s) (monitoring_mpv s) (player_paused s).
Definition set_selected_index (v : Z) (s : t) : t :=
  mk (media_dir s) v (file_list s) (player_process s) (current_view s) (window s) (current_media_info s) (playback_start_time s) (pause_time s) (playlist s) (current_media_index s) (ipc_socket s) (mpv_event_thread s) (monitoring_mpv s) (player_paused s).
Definition set_file_list (v : list Path) (s : t) : t :=
  mk (media_dir s) (selected_index s) v (player_process s) (current_view s) (window s) (current_media_info s) (playback_start_time s) (pause_time s) (playlist s) (current_media_index s) (ipc_socket s) (mpv_event_thread s) (monitoring_mpv s) (player_paused s).
Definition set_player_process (v : option nat) (s : t) : t :=
  mk (media_dir s) (selected_index s) (file_list s) v (current_view s) (window s) (current_media_info s) (playback_start_time s) (pause_time s) (playlist s) (current_media_index s) (ipc_socket s) (mpv_event_thread s) (monitoring_mpv s) (player_paused s).
Definition set_current_view (v : string) (s : t) : t :=
  mk (media_dir s) (selected_index s) (file_list s) (player_process s) v (window s) (current_media_info s) (playback_start_time s) (pause_time s) (playlist s) (current_media_index s) (ipc_socket s) (mpv_event_thread s) (monitoring_mpv s) (player_paused s).
Definition set_window (v : option Window) (s : t) : t :=
  mk (media_dir s) (selected_index s) (file_list s) (player_process s) (current_view s) v (current_media_info s) (playback_start_time s) (pause_time s) (playlist s) (current_media_index s) (ipc_socket s) (mpv_event_thread s) (monitoring_mpv s) (player_paused s).
Definition set_current_media_info (v : gmap string value) (s : t) : t :=
  mk (media_dir s) (selected_index s) (file_list s) (player_process s) (current_view s) (window s) v (playback_start_time s) (pause_time s) (playlist s) (current_media_index s) (ipc_socket s) (mpv_event_thread s) (monitoring_mpv s) (player_paused s).
Definition set_playback_start_time (v : option Qc) (s : t) : t :=
  mk (media_dir s) (selected_index s) (file_list s) (player_process s) (current_view s) (window s) (current_media_info s) v (pause_time s) (playlist s) (current_media_index s) (ipc_socket s) (mpv_event_thread s) (monitoring_mpv s) (player_paused s).
Definition set_pause_time (v : option Qc) (s : t) : t :=
  mk (media_dir s) (selected_index s) (file_list s) (player_process s) (current_view s) (window s) (current_media_info s) (playback_start_time s) v (playlist s) (current_media_index s) (ipc_socket s) (mpv_event_thread s) (monitoring_mpv s) (player_paused s).
Definition set_playlist (v : list Path) (s : t) : t :=
  mk (media_dir s) (selected_index s) (file_list s) (player_process s) (current_view s) (window s) (current_media_info s) (playback_start_time s) (pause_time s) v (current_media_index s) (ipc_socket s) (mpv_event_thread s) (monitoring_mpv s) (player_paused s).
Definition set_current_media_index (v : option Z) (s : t) : t :=
  mk (media_dir s) (selected_index s) (file_list s) (player_process s) (current_view s) (window s) (current_media_info s) (playback_start_time s) (pause_time s) (playlist s) v (ipc_socket s) (mpv_event_thread s) (monitoring_mpv s) (player_paused s).
Definition set_ipc_socket (v : option string) (s : t) : t :=
  mk (media_dir s) (selected_index s) (file_list s) (player_process s) (current_view s) (window s) (current_media_info s) (playback_start_time s) (pause_time s) (playlist s) (current_media_index s) v (mpv_event_thread s) (monitoring_mpv s) (player_paused s).
Definition set_mpv_event_thread (v : option nat) (s : t) : t :=
  mk (media_dir s) (selected_index s) (file_list s) (player_process s) (current_view s) (window s) (current_media_info s) (playback_start_time s) (pause_time s) (playlist s) (current_media_index s) (ipc_socket s) v (monitoring_mpv s) (player_paused s).
Definition set_monitoring_mpv (v : bool) (s : t) : t :=
  mk (media_dir s) (selected_index s) (file_list s) (player_process s) (current_view s) (window s) (current_media_info s) (playback_start_time s) (pause_time s) (playlist s) (current_media_index s) (ipc_socket s) (mpv_event_thread s) v (player_paused s).
Definition set_player_paused (v : option bool) (s : t) : t :=
  mk (media_dir s) (selected_index s) (file_list s) (player_process s) (current_view s) (window s) (current_media_info s) (playback_start_time s) (pause_time s) (playlist s) (current_media_index s) (ipc_socket s) (mpv_event_thread s) (monitoring_mpv s) v.

Definition st : Type := World * t.

Definition self {A} (f : t → A) : M st A := gets (λ s, f s.2).
Definition upd (f : t → t) : M st unit := modify (λ s, (s.1, f s.2)).
Definition os {A} (m : M World A) : M st A := zoom1 m.

Definition extensions : list string := [".mp4"; ".mkv"; ".avi"; ".mov"].

Definition is_media (f : Path) : bool :=
  bool_decide (lower (suffix f) ∈ extensions).

Section WithEnv.

Variable env : Env.

Definition videos : Path := div (home env) "Videos".

Definition get_media_directories (dir : Path) : list Path :=
  if negb (path_exists_ env dir) then []
  else sorted (List.filter (λ f, is_dir env f && negb (hidden f)) (iterdir env dir)).

Definition get_directory_content (dir : Path) : list Path :=
  if negb (path_exists_ env dir) then []
  else sorted (List.filter (λ f, (is_dir env f || is_media f) && negb (hidden f))
                 (iterdir env dir)).

(** [__init__] *)
Definition init : t :=
  mk videos 0 (get_media_directories videos) None "dashboard" None ∅ None None []
     None None None false None.

(** The render methods only draw; [window.clear()] on a window that was
    never stored raises AttributeError. *)
Definition draw (w : option Window) : M st unit :=
  match w with
  | Some _ => mret tt
  | None => raise AttributeError
  end.

Definition render (w : option Window) : M st unit :=
  upd (set_window w);;
  v ← self current_view;
  when (bool_decide (v ∈ ["dashboard"; "explorer"; "player"])) (draw w).

(** [self.render(self.window)] *)
Definition rerender : M st unit := w ← self window; render w.

(** Assignment to [self.monitoring_mpv], the flag the monitor polls. *)
Definition set_flag (b : bool) : M st unit :=
  upd (set_monitoring_mpv b);; os (log (MonitorFlag b)).

Definition track_dict (d : option (gmap string string)) : value :=
  VDict (default ∅ d).

Definition play_media_file (file_path : Path) : M st unit :=
  pp ← self player_process;
  match pp with
  | Some p => r ← os (poll p); when (bool_decide (r = None)) (os (terminate p))
  | None => mret tt
  end;;
  let sock := "/tmp/mpv_socket_" +:+ pretty (getpid env) in
  upd (set_ipc_socket (Some sock));;
  pid ← os (popen (mpv_installed env)
              ["mpv"; "--fs"; "--quiet"; "--input-ipc-server=" +:+ sock; str file_path]);
  upd (set_player_process (Some pid));;
  let media_title := stem file_path in
  let '(general_track, video_track, audio_track) := media_info env file_path in
  upd (set_current_media_info
         (<["title" := VStr media_title]>
            (<["file_path" := VStr (str file_path)]>
               (<["general_track" := track_dict general_track]>
                  (<["video_track" := track_dict video_track]>
                     (<["audio_track" := track_dict audio_track]> ∅))))));;
  now ← os time;
  upd (set_playback_start_time (Some now));;
  upd (set_player_paused (Some false));;
  set_flag true;;
  tid ← os thread_start;
  upd (set_mpv_event_thread (Some tid)).

(** [if self.mpv_event_thread and self.mpv_event_thread.is_alive():
       self.mpv_event_thread.join()] *)
Definition join_monitor (caller : thread) : M st unit :=
  th ← self mpv_event_thread;
  match th with
  | Some tid => alive ← os (is_alive tid); when alive (os (join caller tid))
  | None => mret tt
  end.

Definition stop_media (clean_ipc : bool) (caller : thread) : M st unit :=
  pp ← self player_process;
  match pp with
  | Some p =>
      r ← os (poll p);
      when (bool_decide (r = None))
        (os (terminate p);; os (wait p);; upd (set_player_process None))
  | None => mret tt
  end;;
  sock ← self ipc_socket;
  match sock with
  | Some path =>
      ex ← os (path_exists path);
      when (clean_ipc && truthy_str sock && ex) (os (remove path))
  | None => mret tt
  end;;
  upd (set_playback_start_time None);;
  upd (set_player_paused (Some false));;
  upd (set_current_media_info ∅);;
  set_flag false;;
  join_monitor caller.

(** The statement of [handle_playback_end] that follows the cleanup:
    start the next entry of the playlist, or show the player screen. *)
Definition play_next : M st unit :=
  pl ← self playlist;
  idx ← self current_media_index;
  match pl, idx with
  | _ :: _, Some i =>
      if i + 1 <? Z.of_nat (length pl) then
        upd (set_current_media_index (Some (i + 1)));;
        f ← lift (index pl (i + 1));
        play_media_file f
      else upd (set_current_view "player");; rerender
  | _, _ => upd (set_current_view "player");; rerender
  end.

Definition handle_playback_end (caller : thread) : M st unit :=
  stop_media false caller;;
  play_next.

Definition check_playback_status (caller : thread) : M st unit :=
  pp ← self player_process;
  match pp with
  | Some p =>
      r ← os (poll p);
      match r with
      | Some return_code =>
          set_flag false;;
          join_monitor caller;;
          upd (set_player_process None);;
          upd (set_playback_start_time None);;
          upd (set_player_paused (Some false));;
          if return_code =? 0 then mret tt
          else upd (set_current_view "player");; rerender
      | None => mret tt
      end
  | None => mret tt
  end.

(** What the monitor thread reads from the control channel, one line at
    a time: blank, not JSON, JSON that is no object, or an object with
    its "event" member. *)
Inductive mpv_line :=
| Blank
| Malformed
| NotAnObject
| Message (event : option string).

(** One turn of the read loop of [monitor_mpv_events], run by the thread
    [tid] on a complete line.  Any exception raised while the line is
    handled is caught by the loop's [except Exception], which ends it. *)
Definition monitor_line (tid : nat) (line : mpv_line) : M st unit :=
  monitoring ← self monitoring_mpv;
  if negb monitoring then os (thread_exit tid)
  else match line with
       | Blank | Malformed => mret tt
       | NotAnObject => os (thread_exit tid)
       | Message event =>
           if bool_decide (event = Some "idle") then
             try_except (handle_playback_end (Worker tid)) (λ _, mret tt);;
             os (thread_exit tid)
           else mret tt
       end.

Definition handle_explorer_keypress (k : Z) : M st bool :=
  if k =? key "j" then
    n ← self (λ s, Z.of_nat (length (file_list s)));
    i ← self selected_index;
    when (i <? n - 1) (upd (set_selected_index (i + 1)));;
    w ← self window; draw w;;
    mret true
  else if k =? key "k" then
    i ← self selected_index;
    when (0 <? i) (upd (set_selected_index (i - 1)));;
    w ← self window; draw w;;
    mret true
  else if k =? KEY_ENTER then
    fl ← self file_list;
    i ← self selected_index;
    selected_item ← lift (index fl i);
    (if is_dir env selected_item then
       upd (set_media_dir selected_item);;
       upd (set_file_list (get_directory_content selected_item));;
       upd (set_selected_index 0);;
       rerender
     else
       let pl := List.filter (λ f, is_file env f && is_media f) fl in
       upd (set_playlist pl);;
       j ← lift (list_index selected_item pl);
       upd (set_current_media_index (Some j));;
       f ← lift (index pl j);
       play_media_file f;;
       upd (set_current_view "player");;
       rerender);;
    mret true
  else if is_backspace k then
    dir ← self media_dir;
    (if bool_decide (dir = videos) then
       upd (set_current_view "dashboard");;
       upd (set_file_list (get_media_directories dir))
     else
       upd (set_media_dir (parent dir));;
       upd (set_file_list (get_directory_content (parent dir)));;
       upd (set_selected_index 0));;
    rerender;;
    mret true
  else mret false.

Definition handle_player_keypress (k : Z) : M st bool :=
  if is_backspace k then upd (set_current_view "explorer");; rerender;; mret true
  else mret false.

Definition handle_keypress (k : Z) : M st bool :=
  v ← self current_view;
  if bool_decide (v = "dashboard") && (k =? KEY_ENTER) then
    upd (set_current_view "explorer");;
    upd (set_media_dir videos);;
    upd (set_file_list (get_directory_content videos));;
    upd (set_selected_index 0);;
    mret true
  else if bool_decide (v = "explorer") then handle_explorer_keypress k
  else if bool_decide (v = "player") then handle_player_keypress k
  else mret false.

(** [cleanup] *)
Definition cleanup (caller : thread) : M st unit := stop_media true caller.

End WithEnv.

End LocalMedia.

(** ** local_music.py *)

Module LocalMusic.

Record t := mk {
  music_dir : Path;
  selected_index : Z;
  file_list : list Path;
  player_process : option nat;
  current_view : string;
  window : option Window;               (* the window last rendered into *)
  button_regions : list (string * (Z * Z * Z)); (* action, (y, x, width) *)
  player_paused : bool;
  current_track_info : gmap string value;
  playback_start_time : option Qc;
  pause_time : option Qc;
  playlist : list Path;
  current_track_index : option Z
}.

Definition set_music_dir (v : Path) (s : t) : t :=
  mk v (selected_index s) (file_list s) (player_process s) (current_view s) (window s) (button_regions s) (player_paused s) (current_track_info s) (playback_start_time s) (pause_time s) (playlist s) (current_track_index s).
Definition set_selected_index (v : Z) (s : t) : t :=
  mk (music_dir s) v (file_list s) (player_process s) (current_view s) (window s) (button_regions s) (player_paused s) (current_track_info s) (playback_start_time s) (pause_time s) (playlist s) (current_track_index s).
Definition set_file_list (v : list Path) (s : t) : t :=
  mk (music_dir s) (selected_index s) v (player_process s) (current_view s) (window s) (button_regions s) (player_paused s) (current_track_info s) (playback_start_time s) (pause_time s) (playlist s) (current_track_index s).
Definition set_player_process (v : option nat) (s : t) : t :=
  mk (music_dir s) (selected_index s) (file_list s) v (current_view s) (window s) (button_regions s) (player_paused s) (current_track_info s) (playback_start_time s) (pause_time s) (playlist s) (current_track_index s).
Definition set_current_view (v : string) (s : t) : t :=
  mk (music_dir s) (selected_index s) (file_list s) (player_process s) v (window s) (button_regions s) (player_paused s) (current_track_info s) (playback_start_time s) (pause_time s) (playlist s) (current_track_index s).
Definition set_window (v : option Window) (s : t) : t :=
  mk (music_dir s) (selected_index s) (file_list s) (player_process s) (current_view s) v (button_regions s) (player_paused s) (current_track_info s) (playback_start_time s) (pause_time s) (playlist s) (current_track_index s).
Definition set_button_regions (v : list (string * (Z * Z * Z))) (s : t) : t :=
  mk (music_dir s) (selected_index s) (file_list s) (player_process s) (current_view s) (window s) v (player_paused s) (current_track_info s) (playback_start_time s) (pause_time s) (playlist s) (current_track_index s).
Definition set_player_paused (v : bool) (s : t) : t :=
  mk (music_dir s) (selected_index s) (file_list s) (player_process s) (current_view s) (window s) (button_regions s) v (current_track_info s) (playback_start_time s) (pause_time s) (playlist s) (current_track_index s).
Definition set_current_track_info (v : gmap string value) (s : t) : t :=
  mk (music_dir s) (selected_index s) (file_list s) (player_process s) (current_view s) (window s) (button_regions s) (player_paused s) v (playback_start_time s) (pause_time s) (playlist s) (current_track_index s).
Definition set_playback_start_time (v : option Qc) (s : t) : t :=
  mk (music_dir s) (selected_index s) (file_list s) (player_process s) (current_view s) (window s) (button_regions s) (player_paused s) (current_track_info s) v (pause_time s) (playlist s) (current_track_index s).
Definition set_pause_time (v : option Qc) (s : t) : t :=
  mk (music_dir s) (selected_index s) (file_list s) (player_process s) (current_view s) (window s) (button_regions s) (player_paused s) (current_track_info s) (playback_start_time s) v (playlist s) (current_track_index s).
Definition set_playlist (v : list Path) (s : t) : t :=
  mk (music_dir s) (selected_index s) (file_list s) (player_process s) (current_view s) (window s) (button_regions s) (player_paused s) (current_track_info s) (playback_start_time s) (pause_time s) v (current_track_index s).
Definition set_current_track_index (v : option Z) (s : t) : t :=
  mk (music_dir s) (selected_index s) (file_list s) (player_process s) (current_view s) (window s) (button_regions s) (player_paused s) (current_track_info s) (playback_start_time s) (pause_time s) (playlist s) v.

Definition st : Type := World * t.

Definition self {A} (f : t → A) : M st A := gets (λ s, f s.2).
Definition upd (f : t → t) : M st unit := modify (λ s, (s.1, f s.2)).
Definition os {A} (m : M World A) : M st A := zoom1 m.

Definition extensions : list string := [".mp3"; ".flac"; ".wav"].

Definition is_music (f : Path) : bool := bool_decide (suffix f ∈ extensions).

(** The elapsed time [render_player] shows at time [now]. *)
Definition elapsed_time (now : Qc) (s : t) : result Qc :=
  let elapsed :=
    match playback_start_time s with
    | Some start => if truthy_float (Some start) then (now - start)%Qc else 0%Qc
    | None => 0%Qc
    end in
  if player_paused s && truthy_float (pause_time s) then
    match pause_time s, playback_start_time s with
    | Some p, Some start => Ok (p - start)%Qc
    | _, _ => Raise TypeError
    end
  else Ok elapsed.

Definition controls_text : string := " [B] Back  [P] Play/Pause  [N] Next ".

(** [controls_text.find(label)] *)
Definition find (label text : string) : Z :=
  match String.index 0 label text with
  | Some i => Z.of_nat i
  | None => -1
  end.

(** The button positions [render_player] stores for a window. *)
Definition regions (w : Window) : list (string * (Z * Z * Z)) :=
  let '(height, width) := w in
  let controls_y := height - 3 in
  let controls_x := width `div` 2 - len controls_text `div` 2 in
  map (λ '(label, action), (action, (controls_y, controls_x + find label controls_text, len label)))
      [("[B]", "back"); ("[P]", "play_pause"); ("[N]", "next")].

Section WithEnv.

Variable env : Env.

Definition music : Path := div (home env) "Music".

Definition get_music_directories (dir : Path) : list Path :=
  if negb (path_exists_ env dir) then []
  else sorted (List.filter (λ f, is_dir env f && negb (hidden f)) (iterdir env dir)).

Definition get_directory_content (dir : Path) : list Path :=
  if negb (path_exists_ env dir) then []
  else sorted (List.filter (λ f, (is_dir env f || is_music f) && negb (hidden f))
                 (iterdir env dir)).

(** [__init__] *)
Definition init : t :=
  mk music 0 (get_music_directories music) None "dashboard" None [] false ∅ None None
     [] None.

Definition draw (w : option Window) : M st unit :=
  match w with
  | Some _ => mret tt
  | None => raise AttributeError
  end.

(** [render_player] draws, and stores where it drew the buttons. *)
Definition render_player (w : option Window) : M st unit :=
  match w with
  | Some win =>
      now ← os time;
      s ← self id;
      _ ← lift (elapsed_time now s);
      upd (set_button_regions (regions win))
  | None => raise AttributeError
  end.

Definition render (w : option Window) : M st unit :=
  upd (set_window w);;
  v ← self current_view;
  if bool_decide (v = "dashboard") then draw w
  else if bool_decide (v = "explorer") then draw w
  else if bool_decide (v = "player") then render_player w
  else mret tt.

(** [self.render(self.window)] *)
Definition rerender : M st unit := w ← self window; render w.

Definition stop_media : M st unit :=
  pp ← self player_process;
  match pp with
  | Some p =>
      r ← os (poll p);
      when (bool_decide (r = None))
        (os (terminate p);; os (wait p);; upd (set_player_process None))
  | None => mret tt
  end;;
  upd (set_playback_start_time None);;
  upd (set_player_paused false);;
  upd (set_current_track_index None);;
  upd (set_current_track_info ∅).

Definition stop_music : M st unit :=
  pp ← self player_process;
  match pp with
  | Some p =>
      r ← os (poll p);
      when (bool_decide (r = None)) (os (terminate p);; upd (set_player_process None))
  | None => mret tt
  end.

Definition play_music_file (file_path : Path) : M st unit :=
  pp ← self player_process;
  match pp with
  | Some p => r ← os (poll p); when (bool_decide (r = None)) (os (terminate p))
  | None => mret tt
  end;;
  pid ← os (popen (mpv_installed env) ["mpv"; "--no-video"; "--quiet"; str file_path]);
  upd (set_player_process (Some pid));;
  info ← lift (track_info env file_path);
  upd (set_current_track_info info);;
  now ← os time;
  upd (set_playback_start_time (Some now));;
  upd (set_player_paused false).

Definition next_track : M st unit :=
  pl ← self playlist;
  idx ← self current_track_index;
  match pl, idx with
  | _ :: _, Some i =>
      let j := (i + 1) `mod` Z.of_nat (length pl) in
      upd (set_current_track_index (Some j));;
      f ← lift (index pl j);
      play_music_file f;;
      rerender
  | _, _ => mret tt
  end.

Definition previous_track : M st unit :=
  pl ← self playlist;
  idx ← self current_track_index;
  match pl, idx with
  | _ :: _, Some i =>
      let j := (i - 1) `mod` Z.of_nat (length pl) in
      upd (set_current_track_index (Some j));;
      f ← lift (index pl j);
      play_music_file f;;
      rerender
  | _, _ => mret tt
  end.

Definition toggle_playback : M st unit :=
  pp ← self player_process;
  match pp with
  | Some p =>
      r ← os (poll p);
      when (bool_decide (r = None))
        (paused ← self player_paused;
         if paused : bool then
           os (send_signal p SIGCONT);;
           now ← os time;
           start ← self playback_start_time;
           pause ← self pause_time;
           match start, pause with
           | Some s, Some q =>
               upd (set_playback_start_time (Some (s + (now - q))%Qc));;
               upd (set_player_paused false)
           | _, _ => raise TypeError
           end
         else
           os (send_signal p SIGSTOP);;
           now ← os time;
           upd (set_pause_time (Some now));;
           upd (set_player_paused true))
  | None => mret tt
  end.

Definition handle_explorer_keypress (k : Z) : M st bool :=
  if k =? key "j" then
    n ← self (λ s, Z.of_nat (length (file_list s)));
    i ← self selected_index;
    when (i <? n - 1) (upd (set_selected_index (i + 1)));;
    w ← self window; draw w;;
    mret true
  else if k =? key "k" then
    i ← self selected_index;
    when (0 <? i) (upd (set_selected_index (i - 1)));;
    w ← self window; draw w;;
    mret true
  else if k =? KEY_ENTER then
    fl ← self file_list;
    i ← self selected_index;
    selected_item ← lift (index fl i);
    (if is_dir env selected_item then
       upd (set_music_dir selected_item);;
       upd (set_file_list (get_directory_content selected_item));;
       upd (set_selected_index 0)
     else
       let pl := List.filter (λ f, is_file env f && is_music f) fl in
       upd (set_playlist pl);;
       j ← lift (list_index selected_item pl);
       upd (set_current_track_index (Some j));;
       f ← lift (index pl j);
       play_music_file f;;
       upd (set_current_view "player"));;
    rerender;;
    mret true
  else if is_backspace k then
    dir ← self music_dir;
    (if bool_decide (dir = music) then
       upd (set_current_view "dashboard");;
       upd (set_file_list (get_music_directories dir));;
       rerender
     else
       upd (set_music_dir (parent dir));;
       upd (set_file_list (get_directory_content (parent dir)));;
       upd (set_selected_index 0);;
       pp ← self player_process;
       when (bool_decide (pp ≠ None)) stop_music;;
       w ← self window; draw w);;
    mret true
  else mret false.

Definition handle_player_keypress (k : Z) : M st bool :=
  if k =? key "p" then toggle_playback;; mret true
  else if k =? key "n" then next_track;; mret true
  else if k =? key "b" then previous_track;; mret true
  else if k =? KEY_BACKSPACE then
    stop_music;;
    upd (set_current_view "explorer");;
    rerender;;
    mret true
  else mret false.

Definition handle_keypress (k : Z) : M st bool :=
  v ← self current_view;
  if bool_decide (v = "dashboard") && (k =? KEY_ENTER) then
    upd (set_current_view "explorer");;
    upd (set_music_dir music);;
    upd (set_file_list (get_directory_content music));;
    upd (set_selected_index 0);;
    mret true
  else if bool_decide (v = "explorer") then handle_explorer_keypress k
  else if bool_decide (v = "player") then handle_player_keypress k
  else mret false.

(** The first button of [button_regions] that holds the click, if any. *)
Fixpoint hit (x y : Z) (rs : list (string * (Z * Z * Z))) : option string :=
  match rs with
  | [] => None
  | (action, (btn_y, btn_x, btn_width)) :: rs' =>
      if (y =? btn_y) && (btn_x <=? x) && (x <? btn_x + btn_width) then Some action
      else hit x y rs'
  end.

(** [handle_mouse(event)] with [event = (_, x, y, _, button)] *)
Definition handle_mouse (x y button : Z) : M st unit :=
  if button =? BUTTON1_CLICKED then
    rs ← self button_regions;
    match hit x y rs with
    | Some action =>
        if bool_decide (action = "back") then previous_track
        else if bool_decide (action = "play_pause") then toggle_playback
        else if bool_decide (action = "next") then next_track
        else mret tt
    | None => mret tt
    end
  else mret tt.

End WithEnv.

End LocalMusic.

(** ** radio_player.py *)

Module Radio.

(** A station is the JSON object Radio Browser returns for it. *)
Abbreviation station := (gmap string json).

Record t := mk {
  window : option Window;
  current_view : string;
  volume : Z;
  stations : list station;
  favorites : list station;
  selected_index : Z;
  current_station : option station;
  player_process : option nat
}.

Definition set_window (v : option Window) (s : t) : t :=
  mk v (current_view s) (volume s) (stations s) (favorites s) (selected_index s) (current_station s) (player_process s).
Definition set_current_view (v : string) (s : t) : t :=
  mk (window s) v (volume s) (stations s) (favorites s) (selected_index s) (current_station s) (player_process s).
Definition set_volume (v : Z) (s : t) : t :=
  mk (window s) (current_view s) v (stations s) (favorites s) (selected_index s) (current_station s) (player_process s).
Definition set_stations (v : list (gmap string json)) (s : t) : t :=
  mk (window s) (current_view s) (volume s) v (favorites s) (selected_index s) (current_station s) (player_process s).
Definition set_favorites (v : list (gmap string json)) (s : t) : t :=
  mk (window s) (current_view s) (volume s) (stations s) v (selected_index s) (current_station s) (player_process s).
Definition set_selected_index (v : Z) (s : t) : t :=
  mk (window s) (current_view s) (volume s) (stations s) (favorites s) v (current_station s) (player_process s).
Definition set_current_station (v : option (gmap string json)) (s : t) : t :=
  mk (window s) (current_view s) (volume s) (stations s) (favorites s) (selected_index s) v (player_process s).
Definition set_player_process (v : option nat) (s : t) : t :=
  mk (window s) (current_view s) (volume s) (stations s) (favorites s) (selected_index s) (current_station s) v.

Definition st : Type := World * t.

Definition self {A} (f : t → A) : M st A := gets (λ s, f s.2).
Definition upd (f : t → t) : M st unit := modify (λ s, (s.1, f s.2)).
Definition os {A} (m : M World A) : M st A := zoom1 m.

(** [get_volume]: the level amixer reports, 50 when it cannot be read. *)
Definition get_volume (w : World) : Z := default 50 (mixer w).

(** [load_favorites] *)
Definition load_favorites (w : World) : list station := default [] (favorites_file w).

(** [__init__] *)
Definition init (w : World) : t :=
  mk None "radio" (get_volume w) [] (load_favorites w) 0 None None.

(** One round of the background thread [update_volume]. *)
Definition update_volume : M st unit :=
  v ← os (gets get_volume);
  upd (set_volume v).

(** [json.dump(self.favorites, f)] into CHANNELS_FILE *)
Definition save_favorites : M st unit :=
  favs ← self favorites;
  os (modify (set_favorites_file (Some favs))).

(** [station[k]] *)
Definition getitem (s : station) (k : string) : result json :=
  match s !! k with
  | Some v => Ok v
  | None => Raise KeyError
  end.

Definition draw (w : option Window) : M st unit :=
  match w with
  | Some _ => mret tt
  | None => raise AttributeError
  end.

Definition render (w : option Window) : M st unit :=
  upd (set_window w);;
  v ← self current_view;
  when (bool_decide (v ∈ ["radio"; "favorites"; "stations"])) (draw w).

Definition rerender : M st unit := w ← self window; render w.

Definition stop_station : M st unit :=
  pp ← self player_process;
  match pp with
  | Some p => os (terminate p);; upd (set_player_process None)
  | None => mret tt
  end.

(** [subprocess.call(["amixer", "set", "Master", f"{volume}%"])] *)
Definition amixer_set (v : Z) : M World unit :=
  m ← gets mixer;
  match m with
  | Some _ => modify (set_mixer (Some v))
  | None => raise FileNotFoundError
  end.

Definition change_volume (delta : Z) : M st unit :=
  v ← self volume;
  let v' := 0 `max` (100 `min` (v + delta)) in
  upd (set_volume v');;
  os (amixer_set v');;
  rerender.

Section WithEnv.

Variable env : Env.

Definition search_stations : M st unit :=
  upd (set_stations (default [] (radio_browser env))).

Definition play_station (stream_url : json) : M st unit :=
  stop_station;;
  match stream_url with
  | JStr url =>
      pid ← os (popen (mpv_installed env) ["mpv"; "--no-video"; url]);
      upd (set_player_process (Some pid))
  | _ => raise TypeError
  end.

Definition handle_radio_keypress (k : Z) : M st bool :=
  if (k =? key "s") || (k =? key "S") then
    search_stations;;
    upd (set_current_view "stations");;
    upd (set_selected_index 0);;
    rerender;;
    mret true
  else if (k =? key "f") || (k =? key "F") then
    upd (set_current_view "favorites");;
    upd (set_selected_index 0);;
    rerender;;
    mret true
  else if k =? key "+" then change_volume 5;; mret true
  else if k =? key "-" then change_volume (-5);; mret true
  else if is_backspace k then
    stop_station;;
    upd (set_current_view "dashboard");;
    mret true
  else mret false.

Definition handle_stations_keypress (k : Z) : M st bool :=
  if (k =? key "j") || (k =? KEY_DOWN) then
    n ← self (λ s, Z.of_nat (length (stations s)));
    i ← self selected_index;
    when (i <? n - 1) (upd (set_selected_index (i + 1)));;
    w ← self window; draw w;;
    mret true
  else if (k =? key "k") || (k =? KEY_UP) then
    i ← self selected_index;
    when (0 <? i) (upd (set_selected_index (i - 1)));;
    w ← self window; draw w;;
    mret true
  else if k =? KEY_ENTER then
    l ← self stations;
    i ← self selected_index;
    station ← lift (index l i);
    upd (set_current_station (Some station));;
    url ← lift (getitem station "url_resolved");
    play_station url;;
    upd (set_current_view "radio");;
    rerender;;
    mret true
  else if (k =? key "f") || (k =? key "F") then
    l ← self stations;
    i ← self selected_index;
    station ← lift (index l i);
    favs ← self favorites;
    when (negb (contains station favs))
      (upd (set_favorites (favs ++ [station]));;
       save_favorites;;
       w ← self window;
       draw w;;
       _ ← lift (getitem station "name");
       draw w);;
    mret true
  else if is_backspace k then
    upd (set_current_view "radio");;
    rerender;;
    mret true
  else mret false.

Definition handle_favorites_keypress (k : Z) : M st bool :=
  if (k =? key "j") || (k =? KEY_DOWN) then
    n ← self (λ s, Z.of_nat (length (favorites s)));
    i ← self selected_index;
    when (i <? n - 1) (upd (set_selected_index (i + 1)));;
    w ← self window; draw w;;
    mret true
  else if (k =? key "k") || (k =? KEY_UP) then
    i ← self selected_index;
    when (0 <? i) (upd (set_selected_index (i - 1)));;
    w ← self window; draw w;;
    mret true
  else if k =? KEY_ENTER then
    l ← self favorites;
    i ← self selected_index;
    station ← lift (index l i);
    upd (set_current_station (Some station));;
    url ← lift (getitem station "url_resolved");
    play_station url;;
    upd (set_current_view "radio");;
    rerender;;
    mret true
  else if (k =? key "d") || (k =? key "D") then
    l ← self favorites;
    i ← self selected_index;
    l' ← lift (delete_at l i);
    upd (set_favorites l');;
    save_favorites;;
    when ((Z.of_nat (length l') <=? i) && (0 <? i)) (upd (set_selected_index (i - 1)));;
    w ← self window; draw w;;
    mret true
  else if is_backspace k then
    upd (set_current_view "radio");;
    rerender;;
    mret true
  else mret false.

Definition handle_keypress (k : Z) : M st bool :=
  v ← self current_view;
  if bool_decide (v = "radio") then handle_radio_keypress k
  else if bool_decide (v = "stations") then handle_stations_keypress k
  else if bool_decide (v = "favorites") then handle_favorites_keypress k
  else mret false.

End WithEnv.

(** [handle_mouse]: [pass] *)
Definition handle_mouse (x y button : Z) : M st unit := mret tt.

End Radio.

(** ** spotify_player.py *)

Module Spotify.

(** A playlist or an album of the library. *)
Record item := mkItem {
  item_name : string;
  item_id : string;
  item_owner : string;
  item_artists : list string
}.

Record track := mkTrack {
  track_name : string;
  track_uri : string;
  track_artists : list string;
  track_album : string;
  track_images : list string;
  duration_ms : Z
}.

(** An element of [self.tracks]: [{'track': t}] from a playlist, [t]
    itself from an album. *)
Inductive entry :=
| PlaylistEntry (t : track)
| AlbumEntry (t : track).

Record device := mkDevice {
  device_id : string;
  device_name : string;
  device_type : string;
  volume_percent : option Z
}.

Record playback := mkPlayback {
  is_playing : bool;
  progress_ms : option Z;
  playing_item : option track;
  playing_device : option device
}.

(** The answers of the Spotify Web API client [self.sp]; paged answers
    are given with their pages joined. *)
Record Api := mkApi {
  current_user : result string;
  current_user_playlists : result (list item);
  current_user_saved_albums : result (list item);
  playlist_tracks : string → result (list track);
  album_tracks : string → result (list track);
  api_devices : result (list device);
  current_playback : result (option playback);
  start_playback : option string → option string → result unit;
  pause_playback : option string → result unit;
  api_next_track : string → result unit;
  api_previous_track : string → result unit;
  api_volume : Z → option string → result unit;
  api_track : string → result track;
  transfer_playback : string → result unit
}.

Record t := mk {
  sp : option Api;                      (* None when authentication failed *)
  current_view : string;
  explorer_mode : string;
  window : option Window;
  playlists : list item;
  albums : list item;
  items : list item;
  tracks : list entry;
  selected_index : Z;
  current_playlist : option item;
  current_album : option item;
  current_track : option track;
  playback_start_time : option Qc;
  player_paused : bool;
  button_regions : list (string * (Z * Z * Z));
  volume : Z;
  devices : list device;
  current_device : option device
}.

Definition set_sp (v : option Api) (s : t) : t :=
  mk v (current_view s) (explorer_mode s) (window s) (playlists s) (albums s) (items s) (tracks s) (selected_index s) (current_playlist s) (current_album s) (current_track s) (playback_start_time s) (player_paused s) (button_regions s) (volume s) (devices s) (current_device s).
Definition set_current_view (v : string) (s : t) : t :=
  mk (sp s) v (explorer_mode s) (window s) (playlists s) (albums s) (items s) (tracks s) (selected_index s) (current_playlist s) (current_album s) (current_track s) (playback_start_time s) (player_paused s) (button_regions s) (volume s) (devices s) (current_device s).
Definition set_explorer_mode (v : string) (s : t) : t :=
  mk (sp s) (current_view s) v (window s) (playlists s) (albums s) (items s) (tracks s) (selected_index s) (current_playlist s) (current_album s) (current_track s) (playback_start_time s) (player_paused s) (button_regions s) (volume s) (devices s) (current_device s).
Definition set_window (v : option Window) (s : t) : t :=
  mk (sp s) (current_view s) (explorer_mode s) v (playlists s) (albums s) (items s) (tracks s) (selected_index s) (current_playlist s) (current_album s) (current_track s) (playback_start_time s) (player_paused s) (button_regions s) (volume s) (devices s) (current_device s).
Definition set_playlists (v : list item) (s : t) : t :=
  mk (sp s) (current_view s) (explorer_mode s) (window s) v (albums s) (items s) (tracks s) (selected_index s) (current_playlist s) (current_album s) (current_track s) (playback_start_time s) (player_paused s) (button_regions s) (volume s) (devices s) (current_device s).
Definition set_albums (v : list item) (s : t) : t :=
  mk (sp s) (current_view s) (explorer_mode s) (window s) (playlists s) v (items s) (tracks s) (selected_index s) (current_playlist s) (current_album s) (current_track s) (playback_start_time s) (player_paused s) (button_regions s) (volume s) (devices s) (current_device s).
Definition set_items (v : list item) (s : t) : t :=
  mk (sp s) (current_view s) (explorer_mode s) (window s) (playlists s) (albums s) v (tracks s) (selected_index s) (current_playlist s) (current_album s) (current_track s) (playback_start_time s) (player_paused s) (button_regions s) (volume s) (devices s) (current_device s).
Definition set_tracks (v : list entry) (s : t) : t :=
  mk (sp s) (current_view s) (explorer_mode s) (window s) (playlists s) (albums s) (items s) v (selected_index s) (current_playlist s) (current_album s) (current_track s) (playback_start_time s) (player_paused s) (button_regions s) (volume s) (devices s) (current_device s).
Definition set_selected_index (v : Z) (s : t) : t :=
  mk (sp s) (current_view s) (explorer_mode s) (window s) (playlists s) (albums s) (items s) (tracks s) v (current_playlist s) (current_album s) (current_track s) (playback_start_time s) (player_paused s) (button_regions s) (volume s) (devices s) (current_device s).
Definition set_current_playlist (v : option item) (s : t) : t :=
  mk (sp s) (current_view s) (explorer_mode s) (window s) (playlists s) (albums s) (items s) (tracks s) (selected_index s) v (current_album s) (current_track s) (playback_start_time s) (player_paused s) (button_regions s) (volume s) (devices s) (current_device s).
Definition set_current_album (v : option item) (s : t) : t :=
  mk (sp s) (current_view s) (explorer_mode s) (window s) (playlists s) (albums s) (items s) (tracks s) (selected_index s) (current_playlist s) v (current_track s) (playback_start_time s) (player_paused s) (button_regions s) (volume s) (devices s) (current_device s).
Definition set_current_track (v : option track) (s : t) : t :=
  mk (sp s) (current_view s) (explorer_mode s) (window s) (playlists s) (albums s) (items s) (tracks s) (selected_index s) (current_playlist s) (current_album s) v (playback_start_time s) (player_paused s) (button_regions s) (volume s) (devices s) (current_device s).
Definition set_playback_start_time (v : option Qc) (s : t) : t :=
  mk (sp s) (current_view s) (explorer_mode s) (window s) (playlists s) (albums s) (items s) (tracks s) (selected_index s) (current_playlist s) (current_album s) (current_track s) v (player_paused s) (button_regions s) (volume s) (devices s) (current_device s).
Definition set_player_paused (v : bool) (s : t) : t :=
  mk (sp s) (current_view s) (explorer_mode s) (window s) (playlists s) (albums s) (items s) (tracks s) (selected_index s) (current_playlist s) (current_album s) (current_track s) (playback_start_time s) v (button_regions s) (volume s) (devices s) (current_device s).
Definition set_button_regions (v : list (string * (Z * Z * Z))) (s : t) : t :=
  mk (sp s) (current_view s) (explorer_mode s) (window s) (playlists s) (albums s) (items s) (tracks s) (selected_index s) (current_playlist s) (current_album s) (current_track s) (playback_start_time s) (player_paused s) v (volume s) (devices s) (current_device s).
Definition set_volume (v : Z) (s : t) : t :=
  mk (sp s) (current_view s) (explorer_mode s) (window s) (playlists s) (albums s) (items s) (tracks s) (selected_index s) (current_playlist s) (current_album s) (current_track s) (playback_start_time s) (player_paused s) (button_regions s) v (devices s) (current_device s).
Definition set_devices (v : list device) (s : t) : t :=
  mk (sp s) (current_view s) (explorer_mode s) (window s) (playlists s) (albums s) (items s) (tracks s) (selected_index s) (current_playlist s) (current_album s) (current_track s) (playback_start_time s) (player_paused s) (button_regions s) (volume s) v (current_device s).
Definition set_current_device (v : option device) (s : t) : t :=
  mk (sp s) (current_view s) (explorer_mode s) (window s) (playlists s) (albums s) (items s) (tracks s) (selected_index s) (current_playlist s) (current_album s) (current_track s) (playback_start_time s) (player_paused s) (button_regions s) (volume s) (devices s) v.

Definition st : Type := World * t.

Definition self {A} (f : t → A) : M st A := gets (λ s, f s.2).
Definition upd (f : t → t) : M st unit := modify (λ s, (s.1, f s.2)).
Definition os {A} (m : M World A) : M st A := zoom1 m.

(** [__init__] *)
Definition init (api : option Api) : t :=
  mk api "explorer" "playlists" None [] [] [] [] 0 None None None None false [] 50 [] None.

(** A call [self.sp.f(...)] *)
Definition call {A} (f : Api → result A) : M st A :=
  api ← self sp;
  match api with
  | Some a => lift (f a)
  | None => raise AttributeError
  end.

(** [try: m except spotipy.exceptions.SpotifyException as e: h] *)
Definition try_spotify {A} (m : M st A) (h : bool → M st A) : M st A :=
  try_except m (λ e, match e with
                     | SpotifyException disallow => h disallow
                     | _ => raise e
                     end).

(** [self.current_device['id']] *)
Definition device_id_of (d : option device) : result string :=
  match d with
  | Some dev => Ok (device_id dev)
  | None => Raise TypeError
  end.

Definition draw (w : option Window) : M st unit :=
  match w with
  | Some _ => mret tt
  | None => raise AttributeError
  end.

Definition get_user_playlists : M st unit :=
  user_id ← call current_user;
  l ← call current_user_playlists;
  upd (set_playlists (List.filter (λ i, bool_decide (item_owner i = user_id)) l)).

Definition get_user_albums : M st unit :=
  l ← call current_user_saved_albums;
  upd (set_albums l).

Definition get_playlist_tracks (playlist_id : string) : M st unit :=
  l ← call (λ a, playlist_tracks a playlist_id);
  upd (set_tracks (map PlaylistEntry l)).

Definition get_album_tracks (album_id : string) : M st unit :=
  l ← call (λ a, album_tracks a album_id);
  upd (set_tracks (map AlbumEntry l)).

Definition get_available_devices : M st unit :=
  l ← call api_devices;
  upd (set_devices l).

(** [render_explorer] fetches the library when it is empty and points
    [items] at the list of the current mode. *)
Definition render_explorer (w : option Window) : M st unit :=
  draw w;;
  mode ← self explorer_mode;
  if bool_decide (mode = "playlists") then
    pls ← self playlists;
    when (bool_decide (pls = [])) get_user_playlists;;
    pls' ← self playlists;
    upd (set_items pls')
  else if bool_decide (mode = "albums") then
    als ← self albums;
    when (bool_decide (als = [])) get_user_albums;;
    als' ← self albums;
    upd (set_items als')
  else raise UnboundLocalError.

(** [render_tracks] reads the name of the open playlist or album. *)
Definition render_tracks (w : option Window) : M st unit :=
  draw w;;
  mode ← self explorer_mode;
  if bool_decide (mode = "playlists") then
    p ← self current_playlist;
    if p is None then raise TypeError else mret tt
  else if bool_decide (mode = "albums") then
    a ← self current_album;
    if a is None then raise TypeError else mret tt
  else raise UnboundLocalError.

Definition controls (allowed : bool) : list (string * string) :=
  [("[B] Back", "back"); ("[P] Play/Pause", "play_pause"); ("[N] Next", "next")]
  ++ (if allowed then [("[+] Vol Up", "vol_up"); ("[-] Vol Down", "vol_down")] else [])
  ++ [("[D] Devices", "devices")].

Fixpoint layout (y x : Z) (first : bool) (cs : list (string * string))
  : list (string * (Z * Z * Z)) :=
  match cs with
  | [] => []
  | (label, action) :: cs' =>
      let x' := if first then x else x + 2 in
      (action, (y, x', len label)) :: layout y (x' + len label) false cs'
  end.

(** [if self.current_device and not self.current_device.get('volume_percent')] *)
Definition volume_control_allowed (d : option device) : bool :=
  match d with
  | Some dev =>
      match volume_percent dev with
      | Some v => negb (v =? 0)
      | None => false
      end
  | None => true
  end.

Definition render_player (w : option Window) : M st unit :=
  draw w;;
  tr ← self current_track;
  match tr, w with
  | Some _, Some (height, width) =>
      dev ← self current_device;
      _ ← call current_playback;
      upd (set_button_regions (layout (height - 3) 2 true (controls (volume_control_allowed dev))))
  | _, _ => mret tt
  end.

Definition render_devices (w : option Window) : M st unit :=
  draw w;;
  get_available_devices.

Definition render (w : option Window) : M st unit :=
  upd (set_window w);;
  v ← self current_view;
  if bool_decide (v = "explorer") then render_explorer w
  else if bool_decide (v = "tracks") then render_tracks w
  else if bool_decide (v = "player") then render_player w
  else if bool_decide (v = "devices") then render_devices w
  else mret tt.

Definition rerender : M st unit := w ← self window; render w.

Definition play_track (track_uri : string) : M st unit :=
  try_spotify
    (active_devices ← call api_devices;
     match active_devices with
     | [] =>
         w ← self window; draw w;;
         upd (set_current_view "tracks");;
         rerender
     | first_device :: _ =>
         cur ← self current_device;
         match List.find (λ d, bool_decide (lower (device_name d) = "spotifyd")) active_devices with
         | Some d => upd (set_current_device (Some d))
         | None => when (bool_decide (cur = None)) (upd (set_current_device (Some first_device)))
         end;;
         dev ← self current_device;
         id ← lift (device_id_of dev);
         call (λ a, start_playback a (Some id) (Some track_uri));;
         v ← self volume;
         try_spotify (call (λ a, api_volume a v (Some id)))
           (λ disallow, if disallow then mret tt else raise (SpotifyException disallow));;
         tr ← call (λ a, api_track a track_uri);
         upd (set_current_track (Some tr));;
         upd (set_current_view "player");;
         now ← os time;
         upd (set_playback_start_time (Some now));;
         upd (set_player_paused false);;
         rerender
     end)
    (λ _,
       upd (set_current_track None);;
       w ← self window; draw w;;
       upd (set_current_view "tracks");;
       rerender).

Definition toggle_playback : M st unit :=
  try_spotify
    (info ← call current_playback;
     dev ← self current_device;
     (if match info with Some i => is_playing i | None => false end then
        id ← lift (device_id_of dev);
        call (λ a, pause_playback a (Some id));;
        upd (set_player_paused true)
      else
        id ← lift (device_id_of dev);
        call (λ a, start_playback a (Some id) None);;
        upd (set_player_paused false));;
     rerender)
    (λ _, w ← self window; draw w).

Definition update_current_track_info : M st unit :=
  try_spotify
    (info ← call current_playback;
     match info with
     | Some (mkPlayback _ _ (Some tr) dev) =>
         upd (set_current_track (Some tr));;
         match dev with
         | Some d => upd (set_current_device (Some d))
         | None => mret tt
         end
     | _ =>
         upd (set_current_track None);;
         upd (set_current_device None)
     end)
    (λ _,
       upd (set_current_track None);;
       upd (set_current_device None));;
  rerender.

Definition next_track : M st unit :=
  try_spotify
    (dev ← self current_device;
     id ← lift (device_id_of dev);
     call (λ a, api_next_track a id);;
     update_current_track_info)
    (λ _, w ← self window; draw w).

Definition previous_track : M st unit :=
  try_spotify
    (dev ← self current_device;
     id ← lift (device_id_of dev);
     call (λ a, api_previous_track a id);;
     update_current_track_info)
    (λ _, w ← self window; draw w).

(** The body shared by [increase_volume] and [decrease_volume] after the
    new level is stored. *)
Definition push_volume : M st unit :=
  try_spotify
    (v ← self volume;
     dev ← self current_device;
     match dev with
     | Some d => call (λ a, api_volume a v (Some (device_id d)))
     | None => call (λ a, api_volume a v None)
     end)
    (λ disallow,
       if disallow then w ← self window; draw w
       else raise (SpotifyException disallow));;
  rerender.

Definition increase_volume : M st unit :=
  v ← self volume;
  upd (set_volume (100 `min` (v + 10)));;
  push_volume.

Definition decrease_volume : M st unit :=
  v ← self volume;
  upd (set_volume (0 `max` (v - 10)));;
  push_volume.

(** [if self.current_track: view = "player" else: message] on key c *)
Definition show_current (redraw : option Window → M st unit) : M st unit :=
  tr ← self current_track;
  match tr with
  | Some _ => upd (set_current_view "player");; rerender
  | None => w ← self window; draw w;; redraw w
  end.

Definition handle_explorer_keypress (k : Z) : M st bool :=
  if k =? key "j" then
    n ← self (λ s, Z.of_nat (length (items s)));
    i ← self selected_index;
    when (i <? n - 1) (upd (set_selected_index (i + 1)));;
    w ← self window; render_explorer w;;
    mret true
  else if k =? key "k" then
    i ← self selected_index;
    when (0 <? i) (upd (set_selected_index (i - 1)));;
    w ← self window; render_explorer w;;
    mret true
  else if (k =? key "a") || (k =? key "A") then
    upd (set_explorer_mode "albums");;
    upd (set_selected_index 0);;
    w ← self window; render_explorer w;;
    mret true
  else if (k =? key "p") || (k =? key "P") then
    upd (set_explorer_mode "playlists");;
    upd (set_selected_index 0);;
    w ← self window; render_explorer w;;
    mret true
  else if k =? KEY_ENTER then
    mode ← self explorer_mode;
    l ← self items;
    i ← self selected_index;
    (if bool_decide (mode = "playlists") then
       it ← lift (index l i);
       upd (set_current_playlist (Some it));;
       get_playlist_tracks (item_id it);;
       upd (set_selected_index 0);;
       upd (set_current_view "tracks");;
       rerender
     else if bool_decide (mode = "albums") then
       it ← lift (index l i);
       upd (set_current_album (Some it));;
       get_album_tracks (item_id it);;
       upd (set_selected_index 0);;
       upd (set_current_view "tracks");;
       rerender
     else mret tt);;
    mret true
  else if (k =? key "c") || (k =? key "C") then
    show_current render_explorer;;
    mret true
  else if is_backspace k then
    upd (set_current_view "dashboard");;
    mret true
  else mret false.

Definition handle_tracks_keypress (k : Z) : M st bool :=
  if k =? key "j" then
    n ← self (λ s, Z.of_nat (length (tracks s)));
    i ← self selected_index;
    when (i <? n - 1) (upd (set_selected_index (i + 1)));;
    w ← self window; render_tracks w;;
    mret true
  else if k =? key "k" then
    i ← self selected_index;
    when (0 <? i) (upd (set_selected_index (i - 1)));;
    w ← self window; render_tracks w;;
    mret true
  else if k =? KEY_ENTER then
    mode ← self explorer_mode;
    l ← self tracks;
    i ← self selected_index;
    (if bool_decide (mode = "playlists") || bool_decide (mode = "albums") then
       e ← lift (index l i);
       match e with
       | PlaylistEntry tr =>
           if bool_decide (mode = "playlists") then play_track (track_uri tr)
           else raise KeyError
       | AlbumEntry tr =>
           if bool_decide (mode = "albums") then play_track (track_uri tr)
           else raise KeyError
       end
     else raise UnboundLocalError);;
    mret true
  else if (k =? key "d") || (k =? key "D") then
    upd (set_current_view "devices");;
    upd (set_selected_index 0);;
    rerender;;
    mret true
  else if (k =? key "c") || (k =? key "C") then
    show_current render_tracks;;
    mret true
  else if is_backspace k then
    upd (set_current_view "explorer");;
    upd (set_selected_index 0);;
    w ← self window; render_explorer w;;
    mret true
  else mret false.

Definition handle_player_keypress (k : Z) : M st bool :=
  if (k =? key "p") || (k =? key "P") then toggle_playback;; mret true
  else if (k =? key "n") || (k =? key "N") then next_track;; mret true
  else if (k =? key "b") || (k =? key "B") then previous_track;; mret true
  else if k =? key "+" then increase_volume;; mret true
  else if k =? key "-" then decrease_volume;; mret true
  else if (k =? key "d") || (k =? key "D") then
    upd (set_current_view "devices");;
    upd (set_selected_index 0);;
    rerender;;
    mret true
  else if is_backspace k then
    call (λ a, pause_playback a None);;
    upd (set_current_view "tracks");;
    rerender;;
    mret true
  else mret false.

Definition handle_devices_keypress (k : Z) : M st bool :=
  if k =? key "j" then
    n ← self (λ s, Z.of_nat (length (devices s)));
    i ← self selected_index;
    when (i <? n - 1) (upd (set_selected_index (i + 1)));;
    w ← self window; render_devices w;;
    mret true
  else if k =? key "k" then
    i ← self selected_index;
    when (0 <? i) (upd (set_selected_index (i - 1)));;
    w ← self window; render_devices w;;
    mret true
  else if k =? KEY_ENTER then
    l ← self devices;
    i ← self selected_index;
    d ← lift (index l i);
    call (λ a, transfer_playback a (device_id d));;
    upd (set_current_device (Some d));;
    upd (set_current_view "player");;
    rerender;;
    mret true
  else if is_backspace k then
    upd (set_current_view "player");;
    rerender;;
    mret true
  else mret false.

Definition handle_keypress (k : Z) : M st bool :=
  v ← self current_view;
  if bool_decide (v = "explorer") then handle_explorer_keypress k
  else if bool_decide (v = "tracks") then handle_tracks_keypress k
  else if bool_decide (v = "player") then handle_player_keypress k
  else if bool_decide (v = "devices") then handle_devices_keypress k
  else mret false.

Fixpoint hit (x y : Z) (rs : list (string * (Z * Z * Z))) : option string :=
  match rs with
  | [] => None
  | (action, (btn_y, btn_x, btn_width)) :: rs' =>
      if (y =? btn_y) && (btn_x <=? x) && (x <? btn_x + btn_width) then Some action
      else hit x y rs'
  end.

Definition handle_mouse (x y button : Z) : M st unit :=
  if button =? BUTTON1_CLICKED then
    rs ← self button_regions;
    match hit x y rs with
    | Some action =>
        if bool_decide (action = "back") then previous_track
        else if bool_decide (action = "play_pause") then toggle_playback
        else if bool_decide (action = "next") then next_track
        else if bool_decide (action = "vol_up") then increase_volume
        else if bool_decide (action = "vol_down") then decrease_volume
        else if bool_decide (action = "devices") then
          upd (set_current_view "devices");;
          upd (set_selected_index 0);;
          rerender
        else mret tt
    | None => mret tt
    end
  else mret tt.

End Spotify.

(** ** main.py *)

Module Dashboard.

(** The four objects of [self.windows]. *)
Inductive module :=
| Music (m : LocalMusic.t)
| Media (m : LocalMedia.t)
| Cloud (m : Spotify.t)
| Radio_ (m : Radio.t).

Record t := mk {
  monocle_mode : bool;
  active_window : Z;
  windows : list module
}.

Definition set_monocle_mode (v : bool) (d : t) : t := mk v (active_window d) (windows d).
Definition set_active_window (v : Z) (d : t) : t := mk (monocle_mode d) v (windows d).
Definition set_windows (v : list module) (d : t) : t := mk (monocle_mode d) (active_window d) v.

Definition st : Type := World * t.

Definition self {A} (f : t → A) : M st A := gets (λ s, f s.2).
Definition upd (f : t → t) : M st unit := modify (λ s, (s.1, f s.2)).

(** The attributes of a pane that main.py reads and writes. *)
Definition current_view (m : module) : string :=
  match m with
  | Music s => LocalMusic.current_view s
  | Media s => LocalMedia.current_view s
  | Cloud s => Spotify.current_view s
  | Radio_ s => Radio.current_view s
  end.

Definition selected_index (m : module) : Z :=
  match m with
  | Music s => LocalMusic.selected_index s
  | Media s => LocalMedia.selected_index s
  | Cloud s => Spotify.selected_index s
  | Radio_ s => Radio.selected_index s
  end.

Definition set_current_view (v : string) (m : module) : module :=
  match m with
  | Music s => Music (LocalMusic.set_current_view v s)
  | Media s => Media (LocalMedia.set_current_view v s)
  | Cloud s => Cloud (Spotify.set_current_view v s)
  | Radio_ s => Radio_ (Radio.set_current_view v s)
  end.

Definition set_selected_index (v : Z) (m : module) : module :=
  match m with
  | Music s => Music (LocalMusic.set_selected_index v s)
  | Media s => Media (LocalMedia.set_selected_index v s)
  | Cloud s => Cloud (Spotify.set_selected_index v s)
  | Radio_ s => Radio_ (Radio.set_selected_index v s)
  end.

(** [isinstance(module, RadioPlayer)], [isinstance(module, SpotifyPlayer)],
    [hasattr(module, 'handle_mouse')] *)
Definition is_radio (m : module) : bool := if m is Radio_ _ then true else false.
Definition is_spotify (m : module) : bool := if m is Cloud _ then true else false.
Definition has_handle_mouse (m : module) : bool := if m is Media _ then false else true.

(** A method of one pane class, run on a member of [self.windows]. *)
Definition as_module {S A} (inj : S → module) (c : M (World * S) A) (s : S)
  : M (World * module) A :=
  λ wm, let '(r, (w', s')) := c (wm.1, s) in (r, (w', inj s')).

(** [self.windows[i].method(...)]: the object is changed in place. *)
Definition on_module {A} (i : Z) (c : module → M (World * module) A) : M st A :=
  λ wd, match position (length (windows wd.2)) i with
        | Some j =>
            match windows wd.2 !! j with
            | Some m =>
                let '(r, (w', m')) := c m (wd.1, m) in
                (r, (w', set_windows (<[j := m']> (windows wd.2)) wd.2))
            | None => (Raise IndexError, wd)
            end
        | None => (Raise IndexError, wd)
        end.

(** A read of an attribute of [self.windows[i]]. *)
Definition module_attr {A} (i : Z) (f : module → A) : M st A :=
  ws ← self windows;
  m ← lift (index ws i);
  mret (f m).

Section WithEnv.

Variable env : Env.

Definition module_handle_keypress (k : Z) (m : module) : M (World * module) bool :=
  match m with
  | Music s => as_module Music (LocalMusic.handle_keypress env k) s
  | Media s => as_module Media (LocalMedia.handle_keypress env k) s
  | Cloud s => as_module Cloud (Spotify.handle_keypress k) s
  | Radio_ s => as_module Radio_ (Radio.handle_keypress env k) s
  end.

(** [module.handle_mouse(event)], for the classes that define it. *)
Definition module_handle_mouse (x y button : Z) (m : module) : M (World * module) unit :=
  match m with
  | Music s => as_module Music (LocalMusic.handle_mouse env x y button) s
  | Media s => raise AttributeError
  | Cloud s => as_module Cloud (Spotify.handle_mouse x y button) s
  | Radio_ s => as_module Radio_ (Radio.handle_mouse x y button) s
  end.

Definition module_render (win : Window) (m : module) : M (World * module) unit :=
  match m with
  | Music s => as_module Music (LocalMusic.render (Some win)) s
  | Media s => as_module Media (LocalMedia.render (Some win)) s
  | Cloud s => as_module Cloud (Spotify.render (Some win)) s
  | Radio_ s => as_module Radio_ (Radio.render (Some win)) s
  end.

(** [__init__]: the four panes; the cloud and radio panes each start
    a background thread. *)
Definition init (api : option Spotify.Api) : M World t :=
  _ ← thread_start;
  w ← gets id;
  _ ← thread_start;
  mret (mk false 0 [Music (LocalMusic.init env); Media (LocalMedia.init env);
                    Cloud (Spotify.init api); Radio_ (Radio.init w)]).

(** The window of quadrant [idx] on a screen of the given size. *)
Definition quadrant (idx : nat) : Window :=
  let '(height, width) := getmaxyx env in
  let mid_y := height `div` 2 in
  let mid_x := width `div` 2 in
  match idx with
  | 0%nat => (mid_y, mid_x)
  | 1%nat => (mid_y, width - mid_x)
  | 2%nat => (height - mid_y, mid_x)
  | _ => (height - mid_y, width - mid_x)
  end.

Fixpoint draw_quadrants (idx n : nat) : M st unit :=
  match n with
  | O => mret tt
  | S n' =>
      active ← self active_window;
      m ← module_attr (Z.of_nat idx) id;
      when (negb (is_spotify m && negb (active =? 2)))
        (on_module (Z.of_nat idx) (module_render (quadrant idx)));;
      draw_quadrants (S idx) n'
  end.

Definition draw_tiling : M st unit :=
  n ← self (λ d, length (windows d));
  draw_quadrants 0 n.

(** The handler of [draw_monocle] names [logging], which main.py does
    not import: an exception of [render] becomes a NameError. *)
Definition draw_monocle : M st unit :=
  active ← self active_window;
  try_except (on_module active (module_render (getmaxyx env)))
    (λ _, raise NameError).

(** [handle_mouse(event)] with [event = (_, x, y, _, button)] *)
Definition handle_mouse (x y button : Z) : M st unit :=
  mono ← self monocle_mode;
  active ← self active_window;
  m ← (if mono : bool then module_attr active Some else mret None);
  match m with
  | Some m0 =>
      if has_handle_mouse m0 then on_module active (module_handle_mouse x y button)
      else mret tt
  | None => mret tt
  end;;
  if match m with Some m0 => has_handle_mouse m0 | None => false end then mret tt
  else
    let '(height, width) := getmaxyx env in
    let mid_y := height `div` 2 in
    let mid_x := width `div` 2 in
    if button =? BUTTON1_CLICKED then
      upd (set_active_window
             (if (y <? mid_y) && (x <? mid_x) then 0
              else if (y <? mid_y) && (mid_x <=? x) then 1
              else if (mid_y <=? y) && (x <? mid_x) then 2
              else 3));;
      active' ← self active_window;
      _ ← module_attr active' id;
      upd (set_monocle_mode true);;
      on_module active'
        (λ m1, modify (λ wm,
           (wm.1, let m2 := set_selected_index 0
                              (set_current_view (if is_radio m1 then "radio" else "explorer") m1) in
                  match m2 with
                  | Cloud s => Cloud (Spotify.set_current_playlist None s)
                  | _ => m2
                  end)));;
      draw_monocle
    else mret tt.

(** [hasattr(module, 'stop_media')] and [hasattr(module, 'stop_station')] *)
Definition module_cleanup (m : module) : M (World * module) unit :=
  match m with
  | Music s => as_module Music LocalMusic.stop_media s
  | Media s => as_module Media (LocalMedia.stop_media true MainThread) s
  | Cloud s => mret tt
  | Radio_ s => as_module Radio_ Radio.stop_station s
  end.

Fixpoint cleanup_from (idx n : nat) : M st unit :=
  match n with
  | O => mret tt
  | S n' => on_module (Z.of_nat idx) module_cleanup;; cleanup_from (S idx) n'
  end.

Definition cleanup : M st unit :=
  n ← self (λ d, length (windows d));
  cleanup_from 0 n.

(** The statement [if not key_handled: ...] of [handle_keypress]: the
    keys of the dashboard itself.  [active] is the position of [module],
    the pane that was active when the key arrived; [mouse] is what
    [curses.getmouse()] answers.  The result [true] stands for
    [return True]. *)
Definition global_keypress (k : Z) (mouse : Z * Z * Z) (active : Z) : M st bool :=
  if (k =? key "q") || (k =? 27) then cleanup;; mret true
  else if k =? key "m" then
    upd (set_monocle_mode true);; draw_monocle;; mret true
  else if k =? key "t" then
    upd (set_monocle_mode false);; draw_tiling;; mret false
  else
    mono ← self monocle_mode;
    if mono && (k =? key "j") then
      v ← module_attr active current_view;
      current ← self active_window;
      n ← self (λ d, Z.of_nat (length (windows d)));
      when (bool_decide (v = "dashboard") && (current <? n - 1))
        (upd (set_active_window (current + 1));; draw_monocle);;
      mret false
    else if mono && (k =? key "k") then
      v ← module_attr active current_view;
      current ← self active_window;
      when (bool_decide (v = "dashboard") && (0 <? current))
        (upd (set_active_window (current - 1));; draw_monocle);;
      mret false
    else if k =? KEY_MOUSE then
      let '(x, y, button) := mouse in
      handle_mouse x y button;;
      mret false
    else mret false.

(** The last statement of [handle_keypress]: Backspace in monocle mode
    goes back to the tiles when [module] shows its "dashboard" screen. *)
Definition back_to_tiling (k : Z) (active : Z) : M st unit :=
  mono ← self monocle_mode;
  when (is_backspace k && mono)
    (v ← module_attr active current_view;
     when (bool_decide (v = "dashboard"))
       (upd (set_monocle_mode false);; draw_tiling)).

(** [handle_keypress(key)].  The result [true] ends the main loop; the
    method's [None] is [false]. *)
Definition handle_keypress (k : Z) (mouse : Z * Z * Z) : M st bool :=
  active ← self active_window;
  _ ← module_attr active id;
  mono ← self monocle_mode;
  key_handled ← (if mono : bool then on_module active (module_handle_keypress k)
                 else mret false);
  v ← module_attr active current_view;
  if mono && bool_decide (v = "exit") then
    upd (set_monocle_mode false);;
    draw_tiling;;
    mret true
  else
    stop ← (if key_handled : bool then mret false else global_keypress k mouse active);
    if stop : bool then mret true
    else back_to_tiling k active;; mret false.

(** One turn of [main_loop] after [getch()] returned [k]: the result
    [true] leaves the loop. *)
Definition main_loop_step (k : Z) (mouse : Z * Z * Z) : M st bool :=
  quit ← handle_keypress k mouse;
  if quit : bool then mret true
  else
    mono ← self monocle_mode;
    active ← self active_window;
    when mono
      (on_module active
         (λ m, match m with
               | Media s => as_module Media (LocalMedia.check_playback_status MainThread) s
               | _ => mret tt
               end));;
    mono' ← self monocle_mode;
    (if mono' : bool then draw_monocle else draw_tiling);;
    mret false.

End WithEnv.

End Dashboard.

(** ** What a computation leaves untouched *)

(** [m] never changes the observation [f] of the state, whether it
    returns or raises. *)
Definition preserves {S A X} (f : S → X) (m : M S A) : Prop :=
  ∀ s, f (m s).2 = f s.

(** [m] keeps the property [P] of the state, whether it returns or
    raises. *)
Definition keeps {S A} (P : S → Prop) (m : M S A) : Prop :=
  ∀ s, P s → P (m s).2.

(** What a pane publishes to the dashboard: its screen and its cursor. *)
Definition published (m : Dashboard.module) : string * Z :=
  (Dashboard.current_view m, Dashboard.selected_index m).

(** The layout: what the dashboard itself owns. *)
Definition layout_of (s : Dashboard.st) : bool * Z * nat :=
  (Dashboard.monocle_mode s.2, Dashboard.active_window s.2, length (Dashboard.windows s.2)).

(** What the panes publish, in the order of [self.windows]. *)
Definition screens (s : Dashboard.st) : list (string * Z) :=
  map published (Dashboard.windows s.2).

(** The dashboard shows one pane. *)
Definition monocle (s : Dashboard.st) : Prop := Dashboard.monocle_mode s.2 = true.

(** The same, with the class of each pane (radio or not). *)
Definition face (m : Dashboard.module) : string * Z * bool :=
  (published m, Dashboard.is_radio m).

Definition faces (s : Dashboard.st) : list (string * Z * bool) :=
  map face (Dashboard.windows s.2).



(** The order of stopping a session that the specification asks for:
    the cancellation flag is cleared first, the monitor is joined next,
    the process is terminated and reaped after that, and the channel
    endpoint is not removed before the monitor was joined. *)
Definition first_at (e : event) (tr : list event) : option Z :=
  match list_index e tr with
  | Ok i => Some i
  | Raise _ => None
  end.

Fixpoint first_where (P : event → bool) (tr : list event) : option Z :=
  match tr with
  | [] => None
  | e :: tr' => if P e then Some 0 else (λ i, i + 1) <$> first_where P tr'
  end.

Definition is_join (tid : nat) (e : event) : bool :=
  match e with
  | Join t _ => bool_decide (t = tid)
  | _ => false
  end.

Definition spec_stop_order (p tid : nat) (sock : string) (tr : list event) : bool :=
  match first_at (MonitorFlag false) tr, first_where (is_join tid) tr,
        first_at (Terminate p) tr, first_at (Wait p) tr with
  | Some flag, Some joined, Some term, Some reaped =>
      (flag <? joined) && (joined <? term) && (term <? reaped)
      && match first_at (Remove sock) tr with
         | Some removed => joined <? removed
         | None => true
         end
  | _, _, _, _ => false
  end.

(** ** A concrete machine, for the statements at explicit inputs *)

Module Scenario.

Definition home0 : Path := ["home"; "user"].
Definition videos0 : Path := home0 ++ ["Videos"].
Definition music0 : Path := home0 ++ ["Music"].
Definition clips0 : Path := videos0 ++ ["Clips"].
Definition album0 : Path := music0 ++ ["Album"].
Definition a_mp4 : Path := clips0 ++ ["a.mp4"].
Definition b_mp4 : Path := clips0 ++ ["b.mp4"].
Definition x_mp3 : Path := album0 ++ ["x.mp3"].
Definition y_mp3 : Path := album0 ++ ["y.mp3"].

Definition files0 : list Path := [a_mp4; b_mp4; x_mp3; y_mp3].
Definition dirs0 : list Path := [home0; videos0; music0; clips0; album0].

Definition iterdir0 (p : Path) : list Path :=
  if bool_decide (p = clips0) then [b_mp4; a_mp4]
  else if bool_decide (p = album0) then [y_mp3; x_mp3]
  else if bool_decide (p = videos0) then [clips0]
  else if bool_decide (p = music0) then [album0]
  else if bool_decide (p = home0) then [videos0; music0]
  else [].

Definition jazz : gmap string json :=
  <["name" := JStr "Jazz FM"]> (<["url_resolved" := JStr "http://jazz.example/stream"]> ∅).

Definition news : gmap string json :=
  <["name" := JStr "News 24"]> (<["url_resolved" := JStr "http://news.example/stream"]> ∅).

Definition env0 : Env :=
  mkEnv 4242 home0 true iterdir0
    (λ p, bool_decide (p ∈ files0 ++ dirs0))
    (λ p, bool_decide (p ∈ dirs0))
    (λ p, bool_decide (p ∈ files0))
    (λ p, (Some (<["duration" := "60000"]> ∅), None, None))
    (λ p, Ok (<["title" := VStr (stem p)]> (<["length" := VNum (Qc_of_Z 180)]> ∅)))
    (Some [jazz; news])
    (24, 80).

Definition api0 : Spotify.Api :=
  Spotify.mkApi (Ok "me") (Ok [Spotify.mkItem "Mix" "pl1" "me" []]) (Ok [])
    (λ _, Ok []) (λ _, Ok []) (Ok []) (Ok None)
    (λ _ _, Ok tt) (λ _, Ok tt) (λ _, Ok tt) (λ _, Ok tt) (λ _ _, Ok tt)
    (λ uri, Ok (Spotify.mkTrack "Song" uri [] "Album" [] 200000))
    (λ _, Ok tt).

Definition world0 : World :=
  mkWorld [] [] ∅ (Qc_of_Z 1000) [] (Some [jazz]) (Some 40).

Definition screen : Window := (24, 80).
Definition socket0 : string := "/tmp/mpv_socket_4242".

(** mpv binds its control socket some time after it was started. *)
Definition mpv_listens (s : LocalMedia.st) : LocalMedia.st :=
  (set_files (λ fs, fs ∪ {[socket0]}) s.1, s.2).

(** The clock moves to [now]. *)
Definition at_time {S} (now : Z) (s : World * S) : World * S :=
  (set_clock (Qc_of_Z now) s.1, s.2).

(** The video pane after it was drawn, Enter opened the explorer,
    Enter opened the directory Clips, the cursor was moved to entry [i]
    and Enter started that file; mpv then opened its socket. *)
Definition media_playing (i : nat) : LocalMedia.st :=
  let s0 := (world0, LocalMedia.init env0) in
  let s1 := (LocalMedia.render (Some screen) s0).2 in
  let s2 := (LocalMedia.handle_keypress env0 KEY_ENTER s1).2 in
  let s3 := (LocalMedia.handle_keypress env0 KEY_ENTER s2).2 in
  let s4 := Nat.iter i (λ s, (LocalMedia.handle_keypress env0 (key "j") s).2) s3 in
  mpv_listens (LocalMedia.handle_keypress env0 KEY_ENTER s4).2.

(** The music pane after the same steps. *)
Definition music_playing (i : nat) : LocalMusic.st :=
  let s0 := (world0, LocalMusic.init env0) in
  let s1 := (LocalMusic.render (Some screen) s0).2 in
  let s2 := (LocalMusic.handle_keypress env0 KEY_ENTER s1).2 in
  let s3 := (LocalMusic.handle_keypress env0 KEY_ENTER s2).2 in
  let s4 := Nat.iter i (λ s, (LocalMusic.handle_keypress env0 (key "j") s).2) s3 in
  (LocalMusic.handle_keypress env0 KEY_ENTER s4).2.

(** The radio pane showing the stations found, the cursor on the first. *)
Definition radio_stations : Radio.st :=
  let s0 := (world0, Radio.init world0) in
  let s1 := (Radio.render (Some screen) s0).2 in
  (Radio.handle_keypress env0 (key "s") s1).2.

(** The dashboard as [__init__] leaves it, drawn once. *)
Definition dashboard0 : Dashboard.st :=
  match Dashboard.init env0 (Some api0) world0 with
  | (Ok d, w) => (Dashboard.draw_tiling env0 (w, d)).2
  | (Raise _, w) => (w, Dashboard.mk false 0 [])
  end.

Definition press (k : Z) (mouse : Z * Z * Z) (s : Dashboard.st) : Dashboard.st :=
  (Dashboard.handle_keypress env0 k mouse s).2.

Definition no_mouse : Z * Z * Z := (0, 0, 0).

(** A click on the upper right quadrant: the video pane, opened on its
    explorer in monocle mode. *)
Definition video_open : Dashboard.st :=
  press KEY_MOUSE (60, 5, BUTTON1_CLICKED) dashboard0.



(** The player process [pid] exits by itself with [code]. *)
Definition exits {S} (pid : nat) (code : Z) (s : World * S) : World * S :=
  (set_procs <[pid := Exited code]> s.1, s.2).

End Scenario.

(** * Properties *)

(** ** Running a computation *)

#[local] Arguments index : simpl never.
#[local] Arguments delete_at : simpl never.

(** Unfold the monad and the system calls, leaving the case analysis of
    the code on the state. *)
Ltac run :=
  cbv [mbind M_bind bind mret M_ret ret gets modify zoom1 zoom2 when lift raise try_except
       poll terminate wait log path_exists remove is_alive join thread_exit popen
       thread_start send_signal time];
  cbn.

(** Evaluate the tests on key codes that are closed. *)
Ltac keys :=
  repeat match goal with
    | |- context [Z.eqb ?a ?b] =>
        let v := eval vm_compute in (Z.eqb a b) in
        match v with true => idtac | false => idtac end;
        change (Z.eqb a b) with v
    | |- context [is_backspace ?a] =>
        let v := eval vm_compute in (is_backspace a) in
        match v with true => idtac | false => idtac end;
        change (is_backspace a) with v
    end.

(** Decide one test of the code from the hypotheses. *)
Ltac step :=
  first
    [ match goal with
      | H : ?l !! ?i = _ |- context [?l !! ?i] => rewrite H
      | |- context [<[?i := _]> ?l !! ?i] => rewrite list_lookup_insert_eq by (done || lia)
      | |- context [Z.eqb ?a ?b] =>
          let v := eval vm_compute in (Z.eqb a b) in
          match v with true => idtac | false => idtac end;
          change (Z.eqb a b) with v
      | |- context [is_backspace ?a] =>
          let v := eval vm_compute in (is_backspace a) in
          match v with true => idtac | false => idtac end;
          change (is_backspace a) with v
      | |- context [bool_decide ?P] => rewrite (bool_decide_true P) by done
      | |- context [bool_decide ?P] => rewrite (bool_decide_false P) by done
      | |- context [decide (?x = ?y)] => destruct (decide (x = y)); [congruence|]
      | |- context [decide (?x = ?y)] => destruct (decide (x = y)); [|congruence]
      end ];
  cbn.

Lemma run_bind {S A B} (m : M S A) (k : A → M S B) (s : S) :
  (m ≫= k) s = match m s with
               | (Ok a, s') => k a s'
               | (Raise e, s') => (Raise e, s')
               end.
Proof. reflexivity. Qed.

Lemma run_try_except {S A} (m : M S A) (h : exn → M S A) (s : S) :
  try_except m h s = match m s with
                     | (Ok a, s') => (Ok a, s')
                     | (Raise e, s') => h e s'
                     end.
Proof. reflexivity. Qed.

(** ** Observations a computation leaves alone *)

Section Preserves.

Context {S X : Type} (f : S → X).

Lemma preserves_ret {A} (a : A) : preserves f (mret a).
Proof. by intros s. Qed.

Lemma preserves_raise {A} (e : exn) : preserves f (raise (A := A) e).
Proof. by intros s. Qed.

Lemma preserves_gets {A} (g : S → A) : preserves f (gets g).
Proof. by intros s. Qed.

Lemma preserves_lift {A} (r : result A) : preserves f (lift r).
Proof. by intros s. Qed.

Lemma preserves_modify (g : S → S) : (∀ s, f (g s) = f s) → preserves f (modify g).
Proof. intros Hg s. apply Hg. Qed.

Lemma preserves_bind {A B} (m : M S A) (k : A → M S B) :
  preserves f m → (∀ a, preserves f (k a)) → preserves f (m ≫= k).
Proof.
  intros Hm Hk s. rewrite run_bind. specialize (Hm s).
  destruct (m s) as [[a|e] s']; simpl in *; [|done].
  by rewrite Hk.
Qed.

Lemma preserves_try_except {A} (m : M S A) (h : exn → M S A) :
  preserves f m → (∀ e, preserves f (h e)) → preserves f (try_except m h).
Proof.
  intros Hm Hh s. rewrite run_try_except. specialize (Hm s).
  destruct (m s) as [[a|e] s']; simpl in *; [done|].
  by rewrite Hh.
Qed.

Lemma preserves_when (b : bool) (m : M S unit) : preserves f m → preserves f (when b m).
Proof. intros Hm. destruct b; [done|]. apply preserves_ret. Qed.

End Preserves.

Section Keeps.

Context {S : Type} (P : S → Prop).

Lemma keeps_ret {A} (a : A) : keeps P (mret a).
Proof. by intros s. Qed.

Lemma keeps_preserves {A X} (f : S → X) (m : M S A) :
  (∀ s s', f s' = f s → P s → P s') → preserves f m → keeps P m.
Proof. intros HP Hm s. apply HP, Hm. Qed.

Lemma keeps_modify (g : S → S) : (∀ s, P s → P (g s)) → keeps P (modify g).
Proof. intros Hg s. apply Hg. Qed.

Lemma keeps_bind {A B} (m : M S A) (k : A → M S B) :
  keeps P m → (∀ a, keeps P (k a)) → keeps P (m ≫= k).
Proof.
  intros Hm Hk s Hs. rewrite run_bind. specialize (Hm s Hs).
  destruct (m s) as [[a|e] s']; simpl in *; [|done].
  by apply Hk.
Qed.

Lemma keeps_when (b : bool) (m : M S unit) : keeps P m → keeps P (when b m).
Proof. intros Hm. destruct b; [done|]. apply keeps_ret. Qed.

End Keeps.

(** A system call changes no field of the object. *)
Lemma preserves_zoom1 {S1 S2 X A} (f : S2 → X) (m : M S1 A) :
  preserves (λ s : S1 * S2, f s.2) (zoom1 m).
Proof. intros [s1 s2]. unfold zoom1. simpl. by destruct (m s1). Qed.

(** Walk through a computation, statement by statement and branch by
    branch; what is left are the assignments to the observed field. *)
Ltac preserves_walk :=
  repeat first
    [ solve [eauto]
    | apply preserves_ret
    | apply preserves_raise
    | apply preserves_gets
    | apply preserves_lift
    | apply preserves_zoom1
    | apply preserves_when
    | apply preserves_bind; [|intros ?]
    | apply preserves_try_except; [|intros ?]
    | (apply preserves_modify; intros [? ?]; reflexivity)
    | match goal with
      | |- preserves _ (if ?b then _ else _) => destruct b
      | |- preserves _ (match ?x with _ => _ end) => destruct x
      | |- preserves _ (?h _) => progress unfold h
      | |- preserves _ ?h => progress unfold h
      end ].

(** The same walk for a property that is kept: [f] is an observation
    the property depends on, [Hf] says so. *)
Ltac keeps_walk f Hf :=
  repeat first
    [ solve [eauto]
    | apply keeps_ret
    | apply keeps_when
    | apply keeps_bind; [|intros ?]
    | (apply keeps_modify; intros [? ?]; done)
    | (apply (keeps_preserves _ f _ Hf); solve [apply preserves_gets | apply preserves_lift
                                                | apply preserves_raise])
    | match goal with
      | |- keeps _ (if ?b then _ else _) => destruct b
      | |- keeps _ (match ?x with _ => _ end) => destruct x
      end ].

(** ** local_media.py *)

Section MediaFacts.

Variable env : Env.

Lemma run_self {A} (f : LocalMedia.t → A) w s :
  LocalMedia.self f (w, s) = (Ok (f s), (w, s)).
Proof. reflexivity. Qed.

Lemma run_upd (g : LocalMedia.t → LocalMedia.t) w s :
  LocalMedia.upd g (w, s) = (Ok tt, (w, g s)).
Proof. reflexivity. Qed.

(** The cases of a session: its process handle and the state of that
    process, its socket, its monitor thread. *)
Ltac session w s :=
  destruct w as [ps ths fs clk tr fav mx];
  destruct s as [dir sel fl pp view win info start pause pl cursor sock th flag paused];
  simpl in *; subst;
  try (destruct pp as [p|];
       [destruct (ps !! p) as [[| c | c]|] eqn:Hst;
        [pose proof (lookup_lt_Some _ _ _ Hst)|..]|]);
  try (destruct sock as [sock|];
       [destruct (decide (sock ∈ fs)), (decide (sock = ""))|]).

(** What [stop_media] does in every state: the playlist, the cursor and
    the screen stay; the metadata is emptied; no process is added; and
    the call ends in RuntimeError exactly when the caller is the live
    monitor thread itself. *)
Lemma stop_media_spec clean_ipc caller w s :
  let '(r, (w', s')) := LocalMedia.stop_media clean_ipc caller (w, s) in
  LocalMedia.current_media_index s' = LocalMedia.current_media_index s
  ∧ LocalMedia.playlist s' = LocalMedia.playlist s
  ∧ LocalMedia.current_view s' = LocalMedia.current_view s
  ∧ LocalMedia.window s' = LocalMedia.window s
  ∧ LocalMedia.current_media_info s' = ∅
  ∧ LocalMedia.playback_start_time s' = None
  ∧ LocalMedia.monitoring_mpv s' = false
  ∧ length (procs w') = length (procs w)
  ∧ length (threads w') = length (threads w)
  ∧ (r = Raise RuntimeError ∨ r = Ok tt)
  ∧ (r = Raise RuntimeError ↔
       ∃ tid, LocalMedia.mpv_event_thread s = Some tid
              ∧ threads w !! tid = Some true ∧ caller = Worker tid).
Proof.
  session w s; destruct clean_ipc;
    (destruct th as [tid|];
     [destruct (ths !! tid) as [[|]|] eqn:Hth, (decide (caller = Worker tid))|]).
  all: unfold LocalMedia.stop_media, LocalMedia.join_monitor, LocalMedia.set_flag,
         LocalMedia.self, LocalMedia.upd, LocalMedia.os; run; repeat step.
  all: rewrite ?length_insert; repeat split; eauto; try done.
  all: try (intros (? & ? & ? & ?); simplify_eq; done).
Qed.


(** With the cursor on the last entry, [play_next] only sets the screen
    and redraws. *)
Lemma play_next_last w s :
  LocalMedia.playlist s ≠ [] →
  LocalMedia.current_media_index s
  = Some (Z.of_nat (length (LocalMedia.playlist s)) - 1) →
  let '(r, (w', s')) := LocalMedia.play_next env (w, s) in
  w' = w
  ∧ r ≠ Raise RuntimeError
  ∧ LocalMedia.current_media_index s' = LocalMedia.current_media_index s
  ∧ LocalMedia.playlist s' = LocalMedia.playlist s
  ∧ LocalMedia.current_media_info s' = LocalMedia.current_media_info s
  ∧ LocalMedia.current_view s' = "player".
Proof.
  intros Hne Hidx.
  destruct s as [dir sel fl pp view win info start pause pl cursor sock th flag paused];
    simpl in *; subst.
  destruct pl as [|f pl]; [done|].
  unfold LocalMedia.play_next, LocalMedia.rerender, LocalMedia.render, LocalMedia.draw,
    LocalMedia.self, LocalMedia.upd; run.
  rewrite (proj2 (Z.ltb_ge _ _)) by lia. cbn.
  destruct win; cbn; repeat split; done.
Qed.

(** C8, as the code has it: when the "track finished" signal arrives
    with the cursor on the last entry of a non-empty playlist, the cursor
    and the playlist stay as they are, no further track is started and
    the metadata shown by the player screen is emptied; unless the call
    is cut short by the RuntimeError of a thread joining itself, the
    screen is set to "player". *)
Theorem playback_end_at_last_track caller w s :
  LocalMedia.playlist s ≠ [] →
  LocalMedia.current_media_index s
  = Some (Z.of_nat (length (LocalMedia.playlist s)) - 1) →
  let '(r, (w', s')) := LocalMedia.handle_playback_end env caller (w, s) in
  LocalMedia.current_media_index s' = LocalMedia.current_media_index s
  ∧ LocalMedia.playlist s' = LocalMedia.playlist s
  ∧ length (procs w') = length (procs w)
  ∧ LocalMedia.current_media_info s' = ∅
  ∧ (r ≠ Raise RuntimeError → LocalMedia.current_view s' = "player").
Proof.
  intros Hne Hidx.
  unfold LocalMedia.handle_playback_end. rewrite run_bind.
  pose proof (stop_media_spec false caller w s) as Hstop.
  destruct (LocalMedia.stop_media false caller (w, s)) as [r1 [w1 s1]].
  destruct Hstop as (Hc & Hp & Hv & _ & Hi & _ & _ & Hn & _ & Hr & _).
  destruct Hr as [-> | ->].
  - repeat split; try done.
  - pose proof (play_next_last w1 s1) as Hnext.
    rewrite Hp, Hc in Hnext. specialize (Hnext Hne Hidx).
    destruct (LocalMedia.play_next env (w1, s1)) as [r2 [w2 s2]].
    destruct Hnext as (-> & _ & Hc2 & Hp2 & Hi2 & Hv2).
    repeat split; congruence.
Qed.

(** What [play_media_file] does in every state where mpv can be
    started: one process is added, alive, and becomes the session's
    handle; the playlist and the cursor stay. *)
Lemma play_media_file_spec file_path w s :
  mpv_installed env = true →
  let '(r, (w', s')) := LocalMedia.play_media_file env file_path (w, s) in
  r = Ok tt
  ∧ LocalMedia.current_media_index s' = LocalMedia.current_media_index s
  ∧ LocalMedia.playlist s' = LocalMedia.playlist s
  ∧ LocalMedia.current_view s' = LocalMedia.current_view s
  ∧ LocalMedia.player_process s' = Some (length (procs w))
  ∧ length (procs w') = S (length (procs w))
  ∧ procs w' !! length (procs w) = Some Running
  ∧ LocalMedia.current_media_info s' !! "file_path" = Some (VStr (str file_path))
  ∧ LocalMedia.playback_start_time s' = Some (clock w)
  ∧ LocalMedia.monitoring_mpv s' = true.
Proof.
  intros Hmpv.
  destruct (media_info env file_path) as [[general video] audio] eqn:Hinfo.
  session w s.
  all: unfold LocalMedia.play_media_file, LocalMedia.set_flag, LocalMedia.self,
         LocalMedia.upd, LocalMedia.os; rewrite Hmpv, Hinfo; run; repeat step.
  all: rewrite ?length_app, ?length_insert; cbn.
  all: repeat split; try done; try lia.
  all: try (rewrite lookup_app_r; rewrite ?length_insert; [|lia]).
  all: try (replace (length ps - length ps)%nat with 0%nat by lia; done).
Qed.

(** The cursor arithmetic of [handle_playback_end] is right: whenever
    the cleanup is not cut short (the caller is not the live monitor
    thread), a cursor that has a successor moves to it, by exactly one,
    and the entry under the new cursor is started. *)
Lemma playback_end_advances caller w s i :
  mpv_installed env = true →
  (∀ tid, LocalMedia.mpv_event_thread s = Some tid →
          threads w !! tid = Some true → caller ≠ Worker tid) →
  LocalMedia.current_media_index s = Some i →
  0 ≤ i →
  i + 1 < Z.of_nat (length (LocalMedia.playlist s)) →
  let '(r, (w', s')) := LocalMedia.handle_playback_end env caller (w, s) in
  r = Ok tt
  ∧ LocalMedia.current_media_index s' = Some (i + 1)
  ∧ LocalMedia.playlist s' = LocalMedia.playlist s
  ∧ length (procs w') = S (length (procs w))
  ∧ ∃ f, LocalMedia.playlist s !! Z.to_nat (i + 1) = Some f
         ∧ LocalMedia.current_media_info s' !! "file_path" = Some (VStr (str f)).
Proof.
  intros Hmpv Hcaller Hidx Hi Hlt.
  unfold LocalMedia.handle_playback_end. rewrite run_bind.
  pose proof (stop_media_spec false caller w s) as Hstop.
  destruct (LocalMedia.stop_media false caller (w, s)) as [r1 [w1 s1]].
  destruct Hstop as (Hc & Hp & _ & _ & _ & _ & _ & Hn & _ & Hr & Hiff).
  destruct Hr as [-> | ->].
  { destruct (proj1 Hiff eq_refl) as (tid & ? & ? & ?). by edestruct Hcaller. }
  destruct (lookup_lt_is_Some_2 (LocalMedia.playlist s) (Z.to_nat (i + 1))) as [f Hf];
    [lia|].
  pose proof (play_media_file_spec f w1 (LocalMedia.set_current_media_index (Some (i + 1)) s1)
                Hmpv) as Hplay.
  unfold LocalMedia.play_next.
  rewrite run_bind, run_self; cbv beta iota.
  rewrite run_bind, run_self; cbv beta iota.
  rewrite Hp, Hc, Hidx.
  destruct (LocalMedia.playlist s) as [|f0 pl] eqn:Hpl; [simpl in *; lia|].
  rewrite (proj2 (Z.ltb_lt _ _)) by done.
  rewrite run_bind, run_upd; cbv beta iota.
  rewrite run_bind.
  unfold index, position.
  rewrite (proj2 (Z.ltb_ge _ _)) by lia.
  rewrite (proj2 (Z.leb_le _ _)) by lia.
  rewrite (proj2 (Z.ltb_lt _ _)) by done. cbn [andb].
  rewrite Hf. cbn [lift]. cbv beta iota.
  destruct (LocalMedia.play_media_file env f _) as [r2 [w2 s2]].
  destruct Hplay as (-> & Hc2 & Hp2 & _ & _ & Hn2 & _ & Hi2 & _).
  repeat split; try done.
  - by rewrite Hp2.
  - lia.
  - eauto.
Qed.

(** The "track finished" signal is delivered by the monitor thread,
    which calls [handle_playback_end] itself.  The cleanup then joins the
    calling thread: the handler is cut short before it looks at the
    playlist, whatever the cursor is. *)
Lemma idle_from_monitor_keeps_cursor w s tid :
  LocalMedia.mpv_event_thread s = Some tid →
  threads w !! tid = Some true →
  LocalMedia.monitoring_mpv s = true →
  let '(r, (w', s')) :=
    LocalMedia.monitor_line env tid (LocalMedia.Message (Some "idle")) (w, s) in
  r = Ok tt
  ∧ (LocalMedia.handle_playback_end env (Worker tid) (w, s)).1 = Raise RuntimeError
  ∧ LocalMedia.current_media_index s' = LocalMedia.current_media_index s
  ∧ length (procs w') = length (procs w)
  ∧ threads w' !! tid = Some false.
Proof.
  intros Hth Halive Hflag.
  pose proof (stop_media_spec false (Worker tid) w s) as Hstop.
  unfold LocalMedia.monitor_line, LocalMedia.handle_playback_end.
  rewrite !run_bind. cbn. rewrite Hflag. cbn.
  rewrite bool_decide_true by done.
  rewrite run_bind, run_try_except, run_bind.
  destruct (LocalMedia.stop_media false (Worker tid) (w, s)) as [r1 [w1 s1]].
  destruct Hstop as (Hc & _ & _ & _ & _ & _ & _ & Hn & Ht & _ & Hr).
  assert (r1 = Raise RuntimeError) as -> by (apply Hr; eauto).
  cbn. unfold LocalMedia.os. run.
  repeat split; try done.
  apply list_lookup_insert_eq. rewrite Ht. by eapply lookup_lt_Some.
Qed.

(** C3, as the code has it: stopping an active session (live process,
    bound socket, live monitor thread) from the main thread first
    terminates and reaps the process, then removes the channel endpoint,
    and only then clears the monitor's cancellation flag and joins the
    monitor, with no timeout. *)
Theorem stop_media_order w s p tid sock :
  LocalMedia.player_process s = Some p →
  procs w !! p = Some Running →
  LocalMedia.ipc_socket s = Some sock →
  sock ≠ "" →
  sock ∈ files w →
  LocalMedia.mpv_event_thread s = Some tid →
  threads w !! tid = Some true →
  let '(r, (w', s')) := LocalMedia.stop_media true MainThread (w, s) in
  r = Ok tt
  ∧ trace w' = (trace w ++ [Terminate p; Wait p; Remove sock; MonitorFlag false;
                            Join tid None])
  ∧ procs w' !! p = Some (Reaped (-15))
  ∧ (sock ∉ files w')
  ∧ threads w' !! tid = Some false
  ∧ LocalMedia.player_process s' = None
  ∧ LocalMedia.monitoring_mpv s' = false.
Proof.
  intros Hp Hrun Hsock Hne Hin Hth Halive.
  pose proof (lookup_lt_Some _ _ _ Hrun).
  pose proof (lookup_lt_Some _ _ _ Halive).
  destruct w as [ps ths fs clk tr fav mx];
    destruct s as [dir sel fl pp view win info start pause pl cursor so th flag paused];
    simpl in *; subst.
  unfold LocalMedia.stop_media, LocalMedia.join_monitor, LocalMedia.set_flag,
    LocalMedia.self, LocalMedia.upd, LocalMedia.os; run; repeat step.
  rewrite <- !app_assoc. repeat split; try done.
  - rewrite list_lookup_insert_eq; [done|]. by rewrite length_insert.
  - apply not_elem_of_difference. right. by apply elem_of_singleton.
  - by apply list_lookup_insert_eq.
Qed.

(** C7, as the code has it: when the periodic check finds that the
    player process has exited with a nonzero code, the session becomes
    idle (the exit status is collected, the handle and the start time
    are dropped, the monitor is cancelled and joined) and the pane's
    screen is set to "player"; playlist and cursor stay. *)
Theorem nonzero_exit_shows_player w s p code :
  LocalMedia.player_process s = Some p →
  procs w !! p = Some (Exited code) →
  code ≠ 0 →
  let '(r, (w', s')) := LocalMedia.check_playback_status MainThread (w, s) in
  LocalMedia.player_process s' = None
  ∧ LocalMedia.playback_start_time s' = None
  ∧ LocalMedia.monitoring_mpv s' = false
  ∧ procs w' !! p = Some (Reaped code)
  ∧ (∀ tid, LocalMedia.mpv_event_thread s = Some tid →
            default false (threads w' !! tid) = false)
  ∧ LocalMedia.current_view s' = "player"
  ∧ LocalMedia.playlist s' = LocalMedia.playlist s
  ∧ LocalMedia.current_media_index s' = LocalMedia.current_media_index s.
Proof.
  intros Hp Hrun Hcode.
  pose proof (lookup_lt_Some _ _ _ Hrun).
  destruct w as [ps ths fs clk tr fav mx];
    destruct s as [dir sel fl pp view win info start pause pl cursor so th flag paused];
    simpl in *; subst.
  destruct th as [tid|]; [destruct (ths !! tid) as [[|]|] eqn:Hth|]; destruct win.
  all: unfold LocalMedia.check_playback_status, LocalMedia.join_monitor,
         LocalMedia.set_flag, LocalMedia.rerender, LocalMedia.render, LocalMedia.draw,
         LocalMedia.self, LocalMedia.upd, LocalMedia.os; run; repeat step.
  all: rewrite (proj2 (Z.eqb_neq _ _)) by done; cbn.
  all: repeat split; try done; try (by apply list_lookup_insert_eq).
  all: intros ? [= <-]; cbn; rewrite ?Hth; try done.
  all: rewrite list_lookup_insert_eq; [done|]; by eapply lookup_lt_Some.
Qed.

(** Starting a file while the previous player is alive: the previous
    process gets SIGTERM and is left as it dies, its exit status never
    collected; the new process is started beside it. *)
Lemma play_media_file_replaces file_path w s p :
  mpv_installed env = true →
  LocalMedia.player_process s = Some p →
  procs w !! p = Some Running →
  let '(r, (w', s')) := LocalMedia.play_media_file env file_path (w, s) in
  procs w' = <[p := Exited (-15)]> (procs w) ++ [Running]
  ∧ LocalMedia.player_process s' = Some (length (procs w))
  ∧ (Wait p ∉ drop (length (trace w)) (trace w')).
Proof.
  intros Hmpv Hp Hrun.
  destruct (media_info env file_path) as [[general video] audio] eqn:Hinfo.
  destruct w as [ps ths fs clk tr fav mx];
    destruct s as [dir sel fl pp view win info start pause pl cursor so th flag paused];
    simpl in *; subst.
  unfold LocalMedia.play_media_file, LocalMedia.set_flag, LocalMedia.self,
    LocalMedia.upd, LocalMedia.os; rewrite Hmpv, Hinfo; run; repeat step.
  rewrite length_insert, <- !app_assoc, drop_app_length.
  repeat split; try done.
  cbn. intros Hin.
  repeat (apply elem_of_cons in Hin as [?|Hin]; [done|]).
  by apply elem_of_nil in Hin.
Qed.

End MediaFacts.

(** ** local_music.py *)

Section MusicFacts.

Variable env : Env.

Lemma nonzero_of_pos (q : Qc) : (0 < q)%Qc → bool_decide (q = 0%Qc) = false.
Proof.
  intros Hq. apply bool_decide_false. intros ->. by apply (Qclt_not_eq _ _ Hq).
Qed.

(** C6: pausing a playing session at [paused_at] and resuming it at
    [resumed_at], however much later, leaves the elapsed time that
    [render_player] shows unchanged: it is [paused_at - start] just
    before the pause, all the while the session is paused, and just
    after the resume, which moves the start timestamp forward by the
    time spent paused.  (Timestamps are exact here, so the "one tick"
    of the claim is zero.) *)
Theorem pause_resume_keeps_elapsed w s p start paused_at resumed_at :
  LocalMusic.player_process s = Some p →
  procs w !! p = Some Running →
  LocalMusic.player_paused s = false →
  LocalMusic.playback_start_time s = Some start →
  clock w = paused_at →
  (0 < start)%Qc →
  (start ≤ paused_at)%Qc →
  (paused_at ≤ resumed_at)%Qc →
  let '(r1, (w1, s1)) := LocalMusic.toggle_playback (w, s) in
  let '(r2, (w2, s2)) := LocalMusic.toggle_playback (set_clock resumed_at w1, s1) in
  r1 = Ok tt ∧ r2 = Ok tt
  ∧ LocalMusic.player_paused s1 = true
  ∧ LocalMusic.player_paused s2 = false
  ∧ LocalMusic.elapsed_time paused_at s = Ok (paused_at - start)%Qc
  ∧ (∀ now, LocalMusic.elapsed_time now s1 = Ok (paused_at - start)%Qc)
  ∧ LocalMusic.playback_start_time s2 = Some (start + (resumed_at - paused_at))%Qc
  ∧ LocalMusic.elapsed_time resumed_at s2 = LocalMusic.elapsed_time paused_at s.
Proof.
  intros Hp Hrun Hpaused Hstart Hclock Hpos Hle1 Hle2.
  assert (0 < paused_at)%Qc as Hpos' by (by eapply Qclt_le_trans).
  assert (0 < start + (resumed_at - paused_at))%Qc as Hpos''.
  { apply Qcplus_pos_nonneg; [done|]. by apply Qcle_minus_iff in Hle2. }
  destruct w as [ps ths fs clk tr fav mx];
    destruct s as [dir sel fl pp view win regions paused info st pause pl cursor];
    simpl in *; subst.
  unfold LocalMusic.toggle_playback, LocalMusic.elapsed_time, LocalMusic.self,
    LocalMusic.upd, LocalMusic.os; run; repeat step.
  unfold truthy_float.
  rewrite !nonzero_of_pos by done. cbn.
  repeat split; try done.
  f_equal. ring.
Qed.

(** The music pane replaces a live player the same way as the video
    pane: SIGTERM, no wait. *)
Lemma play_music_file_replaces file_path w s p :
  mpv_installed env = true →
  LocalMusic.player_process s = Some p →
  procs w !! p = Some Running →
  let '(r, (w', s')) := LocalMusic.play_music_file env file_path (w, s) in
  procs w' = <[p := Exited (-15)]> (procs w) ++ [Running]
  ∧ LocalMusic.player_process s' = Some (length (procs w))
  ∧ (Wait p ∉ drop (length (trace w)) (trace w')).
Proof.
  intros Hmpv Hp Hrun.
  destruct (track_info env file_path) as [info'|e] eqn:Hinfo.
  all: destruct w as [ps ths fs clk tr fav mx];
    destruct s as [dir sel fl pp view win regions paused info st pause pl cursor];
    simpl in *; subst.
  all: unfold LocalMusic.play_music_file, LocalMusic.self, LocalMusic.upd, LocalMusic.os;
    rewrite Hmpv, Hinfo; run; repeat step.
  all: rewrite length_insert, <- !app_assoc, drop_app_length.
  all: repeat split; try done.
  all: cbn; intros Hin.
  all: repeat (apply elem_of_cons in Hin as [?|Hin]; [done|]).
  all: by apply elem_of_nil in Hin.
Qed.

End MusicFacts.

(** ** radio_player.py and spotify_player.py *)

Section VolumeFacts.

Lemma spotify_render_keeps_volume w :
  preserves (λ s : Spotify.st, Spotify.volume s.2) (Spotify.render w).
Proof.
  unfold Spotify.render, Spotify.render_explorer, Spotify.render_tracks,
    Spotify.render_player, Spotify.render_devices, Spotify.get_user_playlists,
    Spotify.get_user_albums, Spotify.get_available_devices, Spotify.call, Spotify.draw,
    Spotify.self, Spotify.upd, Spotify.os.
  preserves_walk.
Qed.

(** After the new level is stored, nothing in [increase_volume] or
    [decrease_volume] writes the volume again, whatever the Web API
    answers. *)
Lemma push_volume_keeps_volume :
  preserves (λ s : Spotify.st, Spotify.volume s.2) Spotify.push_volume.
Proof.
  unfold Spotify.push_volume, Spotify.rerender.
  pose proof spotify_render_keeps_volume.
  unfold Spotify.call, Spotify.try_spotify, Spotify.draw, Spotify.self, Spotify.upd.
  preserves_walk.
Qed.

Lemma radio_render_keeps_volume w :
  preserves (λ s : Radio.st, Radio.volume s.2) (Radio.render w).
Proof.
  unfold Radio.render, Radio.draw, Radio.self, Radio.upd. preserves_walk.
Qed.

(** C10: with the volume in [0, 100] before, every volume-changing
    operation leaves it in [0, 100]: [change_volume] of the radio pane
    with any delta, [increase_volume] and [decrease_volume] of the cloud
    pane, whether the mixer or the Web API call succeeds or raises. *)
Theorem volume_stays_in_range (delta : Z) (w : World) (r : Radio.t) (c : Spotify.t) :
  0 ≤ Radio.volume r ≤ 100 →
  0 ≤ Spotify.volume c ≤ 100 →
  0 ≤ Radio.volume (Radio.change_volume delta (w, r)).2.2 ≤ 100
  ∧ 0 ≤ Spotify.volume (Spotify.increase_volume (w, c)).2.2 ≤ 100
  ∧ 0 ≤ Spotify.volume (Spotify.decrease_volume (w, c)).2.2 ≤ 100.
Proof.
  intros Hr Hc. split; [|split].
  - unfold Radio.change_volume.
    rewrite run_bind. cbn.
    rewrite run_bind. cbn.
    assert (preserves (λ s : Radio.st, Radio.volume s.2)
              (Radio.os (Radio.amixer_set (0 `max` (100 `min` (Radio.volume r + delta))));;
               Radio.rerender)) as Hkeep.
    { unfold Radio.rerender, Radio.amixer_set, Radio.os, Radio.self.
      pose proof radio_render_keeps_volume. preserves_walk. }
    rewrite Hkeep. cbn. lia.
  - unfold Spotify.increase_volume.
    rewrite run_bind. cbn.
    rewrite run_bind. cbn.
    rewrite (push_volume_keeps_volume _). cbn. lia.
  - unfold Spotify.decrease_volume.
    rewrite run_bind. cbn.
    rewrite run_bind. cbn.
    rewrite (push_volume_keeps_volume _). cbn. lia.
Qed.

End VolumeFacts.

Section RadioFacts.

Variable env : Env.

(** C9: in the stations view, the add-to-favorites key on a station that
    is already among the favorites changes nothing: not the favorites
    list, not the favorites file, nor any other field or file. *)
Theorem favorite_again_is_noop (k : Z) (w : World) (s : Radio.t) (station : gmap string json) :
  k = key "f" ∨ k = key "F" →
  Radio.current_view s = "stations" →
  index (Radio.stations s) (Radio.selected_index s) = Ok station →
  station ∈ Radio.favorites s →
  Radio.handle_keypress env k (w, s) = (Ok true, (w, s)).
Proof.
  intros Hk Hview Hidx Hin.
  destruct s as [win view vol sts favs sel cur pp]; simpl in *; subst.
  unfold Radio.handle_keypress, Radio.handle_stations_keypress, contains,
    Radio.self, Radio.upd, Radio.os.
  destruct Hk as [-> | ->]; run; repeat step; rewrite Hidx; cbn; repeat step; done.
Qed.

End RadioFacts.

(** ** main.py *)

Section DashboardFacts.

Variable env : Env.

(** A method of a pane changes neither the layout nor the number of panes. *)
Lemma on_module_layout {A} i (c : Dashboard.module → M (World * Dashboard.module) A) :
  preserves layout_of (Dashboard.on_module i c).
Proof.
  intros [w d]. unfold Dashboard.on_module, layout_of. simpl.
  destruct (position _ i) as [j|]; [|done].
  destruct (Dashboard.windows d !! j) as [m|]; [|done].
  destruct (c m (w, m)) as [r [w' m']]. simpl. by rewrite length_insert.
Qed.

(** A method that keeps the face of its pane keeps all faces. *)
Lemma on_module_faces {A} i (c : Dashboard.module → M (World * Dashboard.module) A) :
  (∀ w m, face (c m (w, m)).2.2 = face m) →
  preserves faces (Dashboard.on_module i c).
Proof.
  intros Hc [w d]. unfold Dashboard.on_module, faces. simpl.
  destruct (position _ i) as [j|]; [|done].
  destruct (Dashboard.windows d !! j) as [m|] eqn:Hm; [|done].
  specialize (Hc w m). destruct (c m (w, m)) as [r [w' m']]. simpl in *.
  rewrite list_fmap_insert, Hc. apply list_insert_id. by rewrite list_lookup_fmap, Hm.
Qed.


Lemma module_attr_keeps {A X} (f : Dashboard.st → X) i (g : Dashboard.module → A) :
  preserves f (Dashboard.module_attr i g).
Proof. unfold Dashboard.module_attr, Dashboard.self. preserves_walk. Qed.

Lemma as_module_face {S A} (inj : S → Dashboard.module) (obs : S → string * Z * bool)
    (c : M (World * S) A) (s : S) w m :
  (∀ s, face (inj s) = obs s) →
  preserves (λ x : World * S, obs x.2) c →
  face (Dashboard.as_module inj c s (w, m)).2.2 = face (inj s).
Proof.
  intros Hobs Hc. unfold Dashboard.as_module. simpl.
  specialize (Hc (w, s)). destruct (c (w, s)) as [r [w' s']]. simpl in *.
  by rewrite !Hobs.
Qed.

(** Drawing a pane changes neither its screen nor its cursor. *)
Lemma module_render_face win w m :
  face (Dashboard.module_render win m (w, m)).2.2 = face m.
Proof.
  destruct m as [s|s|s|s]; unfold Dashboard.module_render.
  - apply (as_module_face Dashboard.Music
             (λ s, (LocalMusic.current_view s, LocalMusic.selected_index s, false))); [done|].
    unfold LocalMusic.render, LocalMusic.render_player, LocalMusic.draw, LocalMusic.self,
      LocalMusic.upd, LocalMusic.os. preserves_walk.
  - apply (as_module_face Dashboard.Media
             (λ s, (LocalMedia.current_view s, LocalMedia.selected_index s, false))); [done|].
    unfold LocalMedia.render, LocalMedia.draw, LocalMedia.self, LocalMedia.upd.
    preserves_walk.
  - apply (as_module_face Dashboard.Cloud
             (λ s, (Spotify.current_view s, Spotify.selected_index s, false))); [done|].
    unfold Spotify.render, Spotify.render_explorer, Spotify.render_tracks,
      Spotify.render_player, Spotify.render_devices, Spotify.get_user_playlists,
      Spotify.get_user_albums, Spotify.get_available_devices, Spotify.call, Spotify.draw,
      Spotify.self, Spotify.upd, Spotify.os.
    preserves_walk.
  - apply (as_module_face Dashboard.Radio_
             (λ s, (Radio.current_view s, Radio.selected_index s, true))); [done|].
    unfold Radio.render, Radio.draw, Radio.self, Radio.upd. preserves_walk.
Qed.

Lemma draw_quadrants_layout idx n : preserves layout_of (Dashboard.draw_quadrants env idx n).
Proof.
  revert idx. induction n as [|n IH]; intros idx; simpl; [apply preserves_ret|].
  pose proof (@on_module_layout unit). pose proof (@module_attr_keeps Dashboard.module).
  unfold Dashboard.self. preserves_walk.
Qed.

Lemma draw_quadrants_faces idx n : preserves faces (Dashboard.draw_quadrants env idx n).
Proof.
  revert idx. induction n as [|n IH]; intros idx; simpl; [apply preserves_ret|].
  pose proof (@module_attr_keeps Dashboard.module).
  unfold Dashboard.self. preserves_walk.
  apply on_module_faces. intros. apply module_render_face.
Qed.

Lemma draw_tiling_layout : preserves layout_of (Dashboard.draw_tiling env).
Proof.
  unfold Dashboard.draw_tiling, Dashboard.self. pose proof draw_quadrants_layout.
  preserves_walk.
Qed.

Lemma draw_tiling_faces : preserves faces (Dashboard.draw_tiling env).
Proof.
  unfold Dashboard.draw_tiling, Dashboard.self. pose proof draw_quadrants_faces.
  preserves_walk.
Qed.

Lemma draw_monocle_layout : preserves layout_of (Dashboard.draw_monocle env).
Proof.
  unfold Dashboard.draw_monocle, Dashboard.self. pose proof (@on_module_layout unit).
  preserves_walk.
Qed.


Lemma cleanup_layout : preserves layout_of Dashboard.cleanup.
Proof.
  assert (∀ idx n, preserves layout_of (Dashboard.cleanup_from idx n)) as Hfrom.
  { intros idx n. revert idx. induction n as [|n IH]; intros idx; simpl;
      [apply preserves_ret|].
    pose proof (@on_module_layout unit). preserves_walk. }
  unfold Dashboard.cleanup, Dashboard.self. preserves_walk.
Qed.

Lemma run_dself {A} (f : Dashboard.t → A) w d :
  Dashboard.self f (w, d) = (Ok (f d), (w, d)).
Proof. reflexivity. Qed.


Lemma run_module_attr {A} i (g : Dashboard.module → A) w d :
  Dashboard.module_attr i g (w, d)
  = match index (Dashboard.windows d) i with
    | Ok m => (Ok (g m), (w, d))
    | Raise e => (Raise e, (w, d))
    end.
Proof.
  unfold Dashboard.module_attr. rewrite run_bind, run_dself. cbv beta iota.
  rewrite run_bind. unfold lift. by destruct (index _ i).
Qed.

Lemma monocle_of_layout (s s' : Dashboard.st) :
  layout_of s' = layout_of s → monocle s → monocle s'.
Proof. unfold layout_of, monocle. intros [= -> _ _]. done. Qed.

(** A pointer click never leaves monocle mode. *)
Lemma handle_mouse_keeps_monocle x y button :
  keeps monocle (Dashboard.handle_mouse env x y button).
Proof.
  pose proof (λ A i c, keeps_preserves monocle layout_of _ monocle_of_layout
                         (@on_module_layout A i c)) as Hon.
  pose proof (λ A i g, keeps_preserves monocle layout_of _ monocle_of_layout
                         (@module_attr_keeps A _ layout_of i g)) as Hattr.
  pose proof (keeps_preserves monocle layout_of _ monocle_of_layout draw_monocle_layout)
    as Hdraw.
  unfold Dashboard.handle_mouse, Dashboard.self, Dashboard.upd.
  destruct (getmaxyx env) as [height width].
  keeps_walk layout_of monocle_of_layout.
Qed.

(** Of the dashboard's own keys, only [t] can leave monocle mode. *)
Lemma global_keypress_keeps_monocle k mouse active :
  k ≠ key "t" →
  keeps monocle (Dashboard.global_keypress env k mouse active).
Proof.
  intros Hk.
  pose proof (λ A i g, keeps_preserves monocle layout_of _ monocle_of_layout
                         (@module_attr_keeps A _ layout_of i g)) as Hattr.
  pose proof (keeps_preserves monocle layout_of _ monocle_of_layout draw_monocle_layout)
    as Hdraw.
  pose proof (keeps_preserves monocle layout_of _ monocle_of_layout cleanup_layout)
    as Hclean.
  pose proof handle_mouse_keeps_monocle as Hmouse.
  unfold Dashboard.global_keypress, Dashboard.self, Dashboard.upd.
  destruct (k =? key "t") eqn:Ht; [by apply Z.eqb_eq in Ht|].
  destruct mouse as [[x y] button].
  keeps_walk layout_of monocle_of_layout.
Qed.

(** Backspace is none of the dashboard's own keys. *)
Lemma global_keypress_backspace k mouse active s :
  is_backspace k = true →
  Dashboard.global_keypress env k mouse active s = (Ok false, s).
Proof.
  unfold is_backspace. intros Hk.
  apply orb_true_iff in Hk as [Hk|Hk]; [apply orb_true_iff in Hk as [Hk|Hk]|].
  all: apply Z.eqb_eq in Hk; subst k.
  all: unfold Dashboard.global_keypress; keys; cbn [orb andb].
  all: rewrite run_bind; destruct s as [w d]; rewrite run_dself; cbv beta iota.
  all: by rewrite !andb_false_r.
Qed.

(** The last statement of [handle_keypress] leaves monocle mode only on
    Backspace, and only when the pane that was active shows "dashboard". *)
Lemma back_to_tiling_leaves k active s :
  monocle s →
  ¬ monocle (Dashboard.back_to_tiling env k active s).2 →
  is_backspace k = true
  ∧ ∃ m, index (Dashboard.windows s.2) active = Ok m
         ∧ Dashboard.current_view m = "dashboard".
Proof.
  destruct s as [w d]. unfold monocle. simpl. intros Hmono.
  unfold Dashboard.back_to_tiling.
  rewrite run_bind, run_dself. cbv beta iota. rewrite Hmono, andb_true_r.
  destruct (is_backspace k); simpl; [|done].
  rewrite run_bind, run_module_attr.
  destruct (index (Dashboard.windows d) active) as [m|e]; simpl; [|done].
  destruct (decide (Dashboard.current_view m = "dashboard")) as [Hv|Hv].
  - eauto.
  - rewrite bool_decide_false by done. simpl. done.
Qed.

(** C4, as the code has it: a key press in monocle mode ends in the
    tiled layout only in three ways.  The active pane, after handling the
    key itself, publishes the reserved screen "exit"; or the key is
    Backspace and the pane, after handling it, shows "dashboard"; or the
    key is [t] and the pane did not consume it, whatever screen the pane
    is on. *)
Theorem leaving_monocle k mouse w d :
  Dashboard.monocle_mode d = true →
  let '(r, (w', d')) := Dashboard.handle_keypress env k mouse (w, d) in
  Dashboard.monocle_mode d' = false →
  ∃ handled w1 d1 m1,
    Dashboard.on_module (Dashboard.active_window d) (Dashboard.module_handle_keypress env k)
      (w, d) = (Ok handled, (w1, d1))
    ∧ index (Dashboard.windows d1) (Dashboard.active_window d) = Ok m1
    ∧ (Dashboard.current_view m1 = "exit"
       ∨ (is_backspace k = true ∧ Dashboard.current_view m1 = "dashboard")
       ∨ (k = key "t" ∧ handled = false)).
Proof.
  intros Hmono.
  unfold Dashboard.handle_keypress.
  rewrite run_bind, run_dself. cbv beta iota.
  rewrite run_bind, run_module_attr.
  destruct (index (Dashboard.windows d) (Dashboard.active_window d)) as [m0|e0];
    cbv beta iota; [|congruence].
  rewrite run_bind, run_dself. cbv beta iota. rewrite Hmono.
  rewrite run_bind.
  pose proof (on_module_layout (Dashboard.active_window d)
                (Dashboard.module_handle_keypress env k) (w, d)) as Hlay.
  destruct (Dashboard.on_module _ _ (w, d)) as [[handled|e1] [w1 d1]] eqn:Hpane;
    unfold layout_of in Hlay; simpl in Hlay; injection Hlay as Hm1 Ha1 Hn1;
    [|simpl; congruence].
  assert (monocle (w1, d1)) as Hmono1 by (unfold monocle; simpl; congruence).
  rewrite run_bind, run_module_attr.
  destruct (index (Dashboard.windows d1) (Dashboard.active_window d)) as [m1|e2] eqn:Hidx;
    cbv beta iota; [|simpl; congruence].
  cbn [andb].
  destruct (decide (Dashboard.current_view m1 = "exit")) as [Hexit|Hexit].
  { match goal with |- (let '(_, _) := ?x in _) => destruct x as [r [w' d']] end.
    intros _. eauto 10. }
  rewrite bool_decide_false by done. cbv iota.
  rewrite run_bind.
  destruct handled.
  - (* the pane consumed the key *)
    unfold mret, M_ret, ret at 1. cbv beta iota.
    rewrite run_bind.
    pose proof (back_to_tiling_leaves k (Dashboard.active_window d) (w1, d1) Hmono1) as Hback.
    destruct (Dashboard.back_to_tiling env k _ (w1, d1)) as [[[]|e3] [w2 d2]];
      simpl in *; intros Hoff.
    all: destruct Hback as (Hk & m & Hm & Hv); [unfold monocle; simpl; congruence|].
    all: exists true, w1, d1, m1; repeat split; try done; right; left; split; congruence.
  - (* the dashboard's own keys *)
    destruct (decide (k = key "t")) as [->|Ht].
    { match goal with |- (let '(_, _) := ?x in _) => destruct x as [r [w' d']] end.
      intros _. exists false, w1, d1, m1. eauto 10. }
    pose proof (global_keypress_keeps_monocle k mouse (Dashboard.active_window d) Ht
                  (w1, d1) Hmono1) as Hglobal.
    pose proof (global_keypress_backspace k mouse (Dashboard.active_window d) (w1, d1))
      as Hbs.
    destruct (Dashboard.global_keypress env k mouse _ (w1, d1)) as [[stop|e3] [w2 d2]];
      simpl in Hglobal; [|unfold monocle in Hglobal; simpl in *; congruence].
    destruct stop; [unfold monocle in Hglobal; simpl in *; congruence|].
    rewrite run_bind.
    pose proof (back_to_tiling_leaves k (Dashboard.active_window d) (w2, d2) Hglobal)
      as Hback.
    destruct (Dashboard.back_to_tiling env k _ (w2, d2)) as [[[]|e4] [w3 d3]];
      simpl in *; intros Hoff.
    all: destruct Hback as (Hk & m & Hm & Hv); [unfold monocle; simpl; congruence|].
    all: specialize (Hbs Hk); injection Hbs as -> ->.
    all: exists false, w1, d1, m1; repeat split; try done; right; left; split; congruence.
Qed.




Lemma back_to_tiling_faces k active :
  preserves faces (Dashboard.back_to_tiling env k active).
Proof.
  pose proof draw_tiling_faces. pose proof (@module_attr_keeps string _ faces).
  unfold Dashboard.back_to_tiling, Dashboard.self, Dashboard.upd. preserves_walk.
Qed.





End DashboardFacts.

(** ** The properties at explicit inputs *)

Section Concrete.

Import Scenario.

(** C1: the playlist is [a.mp4; b.mp4], a.mp4 is playing (cursor 0) and
    mpv reports "idle" on the control channel.  The monitor thread, which
    is the thread that delivers the signal, runs [handle_playback_end];
    its cleanup joins the running thread itself, the RuntimeError is
    caught by the read loop, and the cursor is still 0: the player
    process is gone and b.mp4 is never started. *)
Theorem idle_signal_from_monitor_does_not_advance :
  let s := media_playing 0 in
  let '(r, (w', s')) := LocalMedia.monitor_line env0 0 (LocalMedia.Message (Some "idle")) s in
  LocalMedia.playlist s.2 = [a_mp4; b_mp4]
  ∧ LocalMedia.current_media_index s.2 = Some 0
  ∧ LocalMedia.mpv_event_thread s.2 = Some 0%nat
  ∧ (LocalMedia.handle_playback_end env0 (Worker 0) s).1 = Raise RuntimeError
  ∧ r = Ok tt
  ∧ LocalMedia.current_media_index s' = Some 0
  ∧ LocalMedia.player_process s' = None
  ∧ procs w' = [Reaped (-15)]
  ∧ threads w' = [false].
Proof. vm_compute. repeat split; reflexivity. Qed.

(** C2: a.mp4 (x.mp3) is playing and b.mp4 (y.mp3) is started.  The
    process of the first file got SIGTERM and is dead, but nothing waited
    for it: its exit status is not collected, and [play_media_file] and
    [play_music_file] made no [wait] call. *)
Theorem replaced_player_is_not_reaped :
  let '(r1, (w1, s1)) := LocalMedia.play_media_file env0 b_mp4 (media_playing 0) in
  let '(r2, (w2, s2)) := LocalMusic.play_music_file env0 y_mp3 (music_playing 0) in
  procs (media_playing 0).1 = [Running]
  ∧ procs w1 = [Exited (-15); Running]
  ∧ drop 3 (trace w1)
    = [Terminate 0;
       Popen 1 ["mpv"; "--fs"; "--quiet"; "--input-ipc-server=/tmp/mpv_socket_4242";
                "/home/user/Videos/Clips/b.mp4"];
       MonitorFlag true; ThreadStart 1]
  ∧ LocalMedia.player_process s1 = Some 1%nat
  ∧ procs (music_playing 0).1 = [Running]
  ∧ procs w2 = [Exited (-15); Running]
  ∧ drop 1 (trace w2)
    = [Terminate 0; Popen 1 ["mpv"; "--no-video"; "--quiet"; "/home/user/Music/Album/y.mp3"]]
  ∧ LocalMusic.player_process s2 = Some 1%nat.
Proof. vm_compute. repeat split; reflexivity. Qed.

(** The calls [stop_media] of the video pane makes on the session that
    plays a.mp4, in their order. *)
Lemma stop_media_order_witness :
  let '(r, (w', s')) :=
    LocalMedia.stop_media true MainThread ((media_playing 0).1, (media_playing 0).2) in
  r = Ok tt
  ∧ trace w' = (trace (media_playing 0).1
                  ++ [Terminate 0; Wait 0; Remove socket0; MonitorFlag false; Join 0 None])
  ∧ procs w' !! 0%nat = Some (Reaped (-15))
  ∧ (socket0 ∉ files w')
  ∧ threads w' !! 0%nat = Some false
  ∧ LocalMedia.player_process s' = None
  ∧ LocalMedia.monitoring_mpv s' = false.
Proof.
  apply (stop_media_order (media_playing 0).1 (media_playing 0).2 0 0 socket0).
  - vm_compute. reflexivity.
  - vm_compute. reflexivity.
  - vm_compute. reflexivity.
  - discriminate.
  - refine (bool_decide_unpack _ _); vm_compute; exact I.
  - vm_compute. reflexivity.
  - vm_compute. reflexivity.
Defined.

(** C3 fails on the code: on the session that plays a.mp4, [stop_media]
    terminates and reaps the process and removes the socket before it
    clears the monitor's flag and joins the monitor; this is not the
    order of the claim. *)
Lemma stop_media_order_differs :
  let calls := drop 3 (trace (LocalMedia.stop_media true MainThread (media_playing 0)).2.1) in
  calls = [Terminate 0; Wait 0; Remove socket0; MonitorFlag false; Join 0 None]
  ∧ spec_stop_order 0 0 socket0 calls = false
  ∧ spec_stop_order 0 0 socket0
      [MonitorFlag false; Join 0 (Some 1%Qc); Terminate 0; Wait 0; Remove socket0] = true.
Proof. vm_compute. repeat split; reflexivity. Qed.

(** Pausing x.mp3 thirty seconds in and resuming it seventy seconds
    later. *)
Lemma pause_resume_keeps_elapsed_witness :
  let s := at_time 1030 (music_playing 0) in
  let '(r1, (w1, s1)) := LocalMusic.toggle_playback (s.1, s.2) in
  let '(r2, (w2, s2)) := LocalMusic.toggle_playback (set_clock (Qc_of_Z 1100) w1, s1) in
  r1 = Ok tt ∧ r2 = Ok tt
  ∧ LocalMusic.player_paused s1 = true
  ∧ LocalMusic.player_paused s2 = false
  ∧ LocalMusic.elapsed_time (Qc_of_Z 1030) s.2 = Ok (Qc_of_Z 1030 - Qc_of_Z 1000)%Qc
  ∧ (∀ now, LocalMusic.elapsed_time now s1 = Ok (Qc_of_Z 1030 - Qc_of_Z 1000)%Qc)
  ∧ LocalMusic.playback_start_time s2
    = Some (Qc_of_Z 1000 + (Qc_of_Z 1100 - Qc_of_Z 1030))%Qc
  ∧ LocalMusic.elapsed_time (Qc_of_Z 1100) s2 = LocalMusic.elapsed_time (Qc_of_Z 1030) s.2.
Proof.
  apply (pause_resume_keeps_elapsed (at_time 1030 (music_playing 0)).1
           (at_time 1030 (music_playing 0)).2 0 (Qc_of_Z 1000) (Qc_of_Z 1030) (Qc_of_Z 1100)).
  - vm_compute. reflexivity.
  - vm_compute. reflexivity.
  - vm_compute. reflexivity.
  - vm_compute. reflexivity.
  - vm_compute. reflexivity.
  - vm_compute. reflexivity.
  - vm_compute. discriminate.
  - vm_compute. discriminate.
Defined.

(** mpv, playing a.mp4, exits with status 3. *)
Lemma nonzero_exit_shows_player_witness :
  let s := exits 0 3 (media_playing 0) in
  let '(r, (w', s')) := LocalMedia.check_playback_status MainThread (s.1, s.2) in
  LocalMedia.player_process s' = None
  ∧ LocalMedia.playback_start_time s' = None
  ∧ LocalMedia.monitoring_mpv s' = false
  ∧ procs w' !! 0%nat = Some (Reaped 3)
  ∧ (∀ tid, LocalMedia.mpv_event_thread s.2 = Some tid →
            default false (threads w' !! tid) = false)
  ∧ LocalMedia.current_view s' = "player"
  ∧ LocalMedia.playlist s' = LocalMedia.playlist s.2
  ∧ LocalMedia.current_media_index s' = LocalMedia.current_media_index s.2.
Proof.
  apply (nonzero_exit_shows_player (exits 0 3 (media_playing 0)).1
           (exits 0 3 (media_playing 0)).2 0 3).
  - vm_compute. reflexivity.
  - vm_compute. reflexivity.
  - discriminate.
Defined.

(** C7 fails on the code: when mpv, playing a.mp4, exits with status 3,
    the pane does not go to its explorer screen; the check sets the
    screen to "player". *)
Lemma nonzero_exit_does_not_show_explorer :
  let s := exits 0 3 (media_playing 0) in
  let '(r, (w', s')) := LocalMedia.check_playback_status MainThread s in
  procs s.1 = [Exited 3]
  ∧ r = Ok tt
  ∧ LocalMedia.player_process s' = None
  ∧ LocalMedia.current_view s' = "player"
  ∧ LocalMedia.current_view s' ≠ "explorer".
Proof. vm_compute. repeat split; (reflexivity || discriminate). Qed.

(** b.mp4, the last entry, is playing and the main thread runs
    [handle_playback_end]. *)
Lemma playback_end_at_last_track_witness :
  let s := media_playing 1 in
  let '(r, (w', s')) := LocalMedia.handle_playback_end env0 MainThread (s.1, s.2) in
  LocalMedia.current_media_index s' = LocalMedia.current_media_index s.2
  ∧ LocalMedia.playlist s' = LocalMedia.playlist s.2
  ∧ length (procs w') = length (procs s.1)
  ∧ LocalMedia.current_media_info s' = ∅
  ∧ (r ≠ Raise RuntimeError → LocalMedia.current_view s' = "player").
Proof.
  apply (playback_end_at_last_track env0 MainThread (media_playing 1).1 (media_playing 1).2).
  - vm_compute. discriminate.
  - vm_compute. reflexivity.
Defined.

(** C8 fails on the code: b.mp4, the last entry of [a.mp4; b.mp4], is
    playing with its metadata stored.  After the "idle" signal (and just
    the same when [handle_playback_end] is run by the main thread) the
    metadata dictionary is empty; the cursor is still 1. *)
Lemma last_track_metadata_is_cleared :
  let s := media_playing 1 in
  let s1 := (LocalMedia.monitor_line env0 0 (LocalMedia.Message (Some "idle")) s).2 in
  let s2 := (LocalMedia.handle_playback_end env0 MainThread s).2 in
  LocalMedia.playlist s.2 = [a_mp4; b_mp4]
  ∧ LocalMedia.current_media_index s.2 = Some 1
  ∧ LocalMedia.current_media_info s.2 !! "title" = Some (VStr "b")
  ∧ LocalMedia.current_media_info s1.2 !! "title" = None
  ∧ LocalMedia.current_media_info s1.2 = ∅
  ∧ LocalMedia.current_media_index s1.2 = Some 1
  ∧ LocalMedia.current_media_info s2.2 = ∅
  ∧ LocalMedia.current_view s2.2 = "player"
  ∧ LocalMedia.current_media_index s2.2 = Some 1.
Proof. vm_compute. repeat split; reflexivity. Qed.

(** "Jazz FM" is a favorite and is under the cursor of the stations
    view. *)
Lemma favorite_again_is_noop_witness :
  Radio.favorites radio_stations.2 = [jazz]
  ∧ favorites_file radio_stations.1 = Some [jazz]
  ∧ Radio.handle_keypress env0 (key "f") (radio_stations.1, radio_stations.2)
    = (Ok true, (radio_stations.1, radio_stations.2)).
Proof.
  split; [vm_compute; reflexivity|]. split; [vm_compute; reflexivity|].
  apply (favorite_again_is_noop env0 (key "f") radio_stations.1 radio_stations.2 jazz).
  - by left.
  - vm_compute. reflexivity.
  - vm_compute. reflexivity.
  - refine (bool_decide_unpack _ _); vm_compute; exact I.
Defined.

(** The radio pane at 40 and the cloud pane at 50; the radio is asked
    for 500 more. *)
Lemma volume_stays_in_range_witness :
  0 ≤ Radio.volume (Radio.change_volume 500 (world0, Radio.init world0)).2.2 ≤ 100
  ∧ 0 ≤ Spotify.volume (Spotify.increase_volume (world0, Spotify.init (Some api0))).2.2 ≤ 100
  ∧ 0 ≤ Spotify.volume (Spotify.decrease_volume (world0, Spotify.init (Some api0))).2.2 ≤ 100.
Proof.
  apply (volume_stays_in_range 500 world0 (Radio.init world0) (Spotify.init (Some api0)));
    vm_compute; split; discriminate.
Defined.

(** The video pane is open on its explorer and [t] is pressed. *)
Lemma leaving_monocle_witness :
  Dashboard.monocle_mode video_open.2 = true
  ∧ let '(r, (w', d')) :=
      Dashboard.handle_keypress env0 (key "t") no_mouse (video_open.1, video_open.2) in
    Dashboard.monocle_mode d' = false →
    ∃ handled w1 d1 m1,
      Dashboard.on_module (Dashboard.active_window video_open.2)
        (Dashboard.module_handle_keypress env0 (key "t")) (video_open.1, video_open.2)
      = (Ok handled, (w1, d1))
      ∧ index (Dashboard.windows d1) (Dashboard.active_window video_open.2) = Ok m1
      ∧ (Dashboard.current_view m1 = "exit"
         ∨ (is_backspace (key "t") = true ∧ Dashboard.current_view m1 = "dashboard")
         ∨ (key "t" = key "t" ∧ handled = false)).
Proof.
  split; [vm_compute; reflexivity|].
  apply (leaving_monocle env0 (key "t") no_mouse video_open.1 video_open.2).
  vm_compute. reflexivity.
Defined.

(** C4 fails on the code: after a click on the upper right quadrant the
    video pane is open on its explorer screen, in monocle mode; the key
    [t], which the pane does not consume, takes the dashboard back to the
    tiles although the pane is not on its "dashboard" screen and does not
    publish "exit". *)
Lemma key_t_leaves_monocle_from_explorer :
  let s := press (key "t") no_mouse video_open in
  Dashboard.monocle_mode video_open.2 = true
  ∧ Dashboard.active_window video_open.2 = 1
  ∧ screens video_open !! 1%nat = Some ("explorer", 0)
  ∧ Dashboard.monocle_mode s.2 = false
  ∧ screens s !! 1%nat = Some ("explorer", 0).
Proof. vm_compute. repeat split; reflexivity. Qed.



End Concrete.
